(** * A SOAP client over HTTP: the Call orchestrator of client.go

    Shallow embedding of client.go: the namespace translator
    ([replaceSoap11to12], [replaceSoap12to11]), the fault formatter
    ([formatFaultXML]), the configuration surface ([NewClient], [UseSoap11],
    [UseSoap12]) and [Call].

    Go byte slices and Go strings are both sequences of bytes; they are
    modelled by [list ascii] (an [ascii] is one byte). *)

From Stdlib Require Import String Ascii List Bool Arith NArith ZArith Lia.
Import ListNotations.

(* ================================================================= *)
(** * Bytes *)

Definition bytes := list ascii.

(** A Go string or byte-slice literal. *)
Definition lit (s : string) : bytes := list_ascii_of_string s.
Arguments lit : simpl never.

Definition LF : bytes := ["010"%char].
Definition TAB : bytes := ["009"%char].

Fixpoint bytes_eqb (x y : bytes) : bool :=
  match x, y with
  | [], [] => true
  | c :: x', d :: y' => Ascii.eqb c d && bytes_eqb x' y'
  | _, _ => false
  end.

(** ** Package unicode/utf8 *)

Module utf8.

Definition RuneError : N := 0xFFFD.

(** The table [first] of the package, for a leading byte [>= 0x80]: the
    length of the sequence and the range accepted for its second byte;
    [None] for a byte that starts no sequence. *)
Definition first (p0 : N) : option (nat * N * N) :=
  if (p0 <? 0xC2)%N then None
  else if (p0 <=? 0xDF)%N then Some (2, 0x80%N, 0xBF%N)
  else if (p0 =? 0xE0)%N then Some (3, 0xA0%N, 0xBF%N)
  else if (p0 =? 0xED)%N then Some (3, 0x80%N, 0x9F%N)
  else if (p0 <=? 0xEF)%N then Some (3, 0x80%N, 0xBF%N)
  else if (p0 =? 0xF0)%N then Some (4, 0x90%N, 0xBF%N)
  else if (p0 <=? 0xF3)%N then Some (4, 0x80%N, 0xBF%N)
  else if (p0 =? 0xF4)%N then Some (4, 0x80%N, 0x8F%N)
  else None.

Definition cont (x : N) : bool := ((0x80 <=? x) && (x <=? 0xBF))%N.
Definition low6 (x : N) : N := N.land x 0x3F.

(** [DecodeRune p]: the first rune of [p] and its width in bytes. *)
Definition DecodeRune (p : bytes) : N * nat :=
  match p with
  | [] => (RuneError, 0)
  | c0 :: p1 =>
    let p0 := N_of_ascii c0 in
    if (p0 <? 0x80)%N then (p0, 1)
    else
      match first p0, p1 with
      | None, _ | _, [] => (RuneError, 1)
      | Some (sz, lo, hi), c1 :: p2 =>
        let b1 := N_of_ascii c1 in
        if ((b1 <? lo) || (hi <? b1))%N then (RuneError, 1)
        else if sz =? 2
        then (N.lor (N.shiftl (N.land p0 0x1F) 6) (low6 b1), 2)
        else
          match p2 with
          | [] => (RuneError, 1)
          | c2 :: p3 =>
            let b2 := N_of_ascii c2 in
            if negb (cont b2) then (RuneError, 1)
            else if sz =? 3
            then (N.lor (N.shiftl (N.land p0 0x0F) 12)
                        (N.lor (N.shiftl (low6 b1) 6) (low6 b2)), 3)
            else
              match p3 with
              | [] => (RuneError, 1)
              | c3 :: _ =>
                let b3 := N_of_ascii c3 in
                if negb (cont b3) then (RuneError, 1)
                else (N.lor (N.shiftl (N.land p0 0x07) 18)
                            (N.lor (N.shiftl (low6 b1) 12)
                                   (N.lor (N.shiftl (low6 b2) 6) (low6 b3))), 4)
              end
          end
      end
  end.

End utf8.

(** ** Package bytes (and strings, which agrees with it on these) *)

Fixpoint HasPrefix (s prefix : bytes) {struct prefix} : bool :=
  match prefix with
  | [] => true
  | p :: prefix' =>
    match s with
    | [] => false
    | c :: s' => Ascii.eqb c p && HasPrefix s' prefix'
    end
  end.

Fixpoint Contains (s subslice : bytes) : bool :=
  HasPrefix s subslice ||
  match s with
  | [] => false
  | _ :: s' => Contains s' subslice
  end.

Fixpoint Repeat (s : bytes) (count : nat) : bytes :=
  match count with
  | O => []
  | S n => s ++ Repeat s n
  end.

(** [replaceFrom old new skip s], for a non-empty [old]: the scan of
    [ReplaceAll] over [s], left to right, matches never overlapping; [skip]
    counts the bytes of the current match still to be passed over. *)
Fixpoint replaceFrom (old new : bytes) (skip : nat) (s : bytes) : bytes :=
  match s with
  | [] => []
  | c :: s' =>
    match skip with
    | S k => replaceFrom old new k s'
    | O =>
      if HasPrefix s old
      then new ++ replaceFrom old new (length old - 1) s'
      else c :: replaceFrom old new 0 s'
    end
  end.

(** For an empty [old] the library matches before every rune and at the
    end; [k] counts the bytes of the current rune still to come. *)
Fixpoint insertAtRunes (new : bytes) (k : nat) (s : bytes) : bytes :=
  match s with
  | [] => []
  | c :: s' =>
    let k' := match k with
              | O => snd (utf8.DecodeRune s) - 1
              | S j => j
              end in
    c :: (if k' =? 0 then new else []) ++ insertAtRunes new k' s'
  end.

Definition ReplaceAll (s old new : bytes) : bytes :=
  match old with
  | [] => new ++ insertAtRunes new 0 s
  | _ :: _ => replaceFrom old new 0 s
  end.

Definition inCutset (cutset : bytes) (c : ascii) : bool :=
  existsb (Ascii.eqb c) cutset.

Fixpoint TrimLeft (s cutset : bytes) : bytes :=
  match s with
  | [] => []
  | c :: s' => if inCutset cutset c then TrimLeft s' cutset else s
  end.

Definition TrimRight (s cutset : bytes) : bytes :=
  rev (TrimLeft (rev s) cutset).

(** [bytes.Trim] for a cutset of ASCII bytes, which the library compares
    byte by byte. *)
Definition Trim (s cutset : bytes) : bytes :=
  TrimRight (TrimLeft s cutset) cutset.

(** [border_free w]: no proper non-empty suffix of [w] is a prefix of [w],
    so two occurrences of [w] in a text never overlap. *)
Definition border_free (w : bytes) : bool :=
  forallb (fun k => negb (HasPrefix w (skipn k w))) (seq 1 (length w - 1)).

(* ================================================================= *)
(** * Constants of the package *)

(** Modelled from the spec: the constants of the package that client.go
    uses and that are declared outside it: the two version selectors, the
    Content-Type of each version, and the envelope namespace literal of each
    version.  The spec fixes one literal per version and does not spell them
    out, so they are left as parameters. *)
Class SoapConsts : Type := {
  SoapVersion11 : bytes;
  SoapVersion12 : bytes;
  SoapContentType11 : bytes;
  SoapContentType12 : bytes;
  bNamespaceSoap11 : bytes;
  bNamespaceSoap12 : bytes
}.

(** One choice of the constants, for running the client on concrete
    messages: the envelope namespace URIs of SOAP 1.1 and of SOAP 1.2, the
    version selectors [1.1] and [1.2], and a content type for each. *)
Definition w3c : SoapConsts := {|
  SoapVersion11 := lit "1.1";
  SoapVersion12 := lit "1.2";
  SoapContentType11 := lit "text/xml; charset=utf-8";
  SoapContentType12 := lit "application/soap+xml; charset=utf-8";
  bNamespaceSoap11 := lit "http://schemas.xmlsoap.org/soap/envelope/";
  bNamespaceSoap12 := lit "http://www.w3.org/2003/05/soap-envelope"
|}.

Definition userAgent : bytes := lit "go-soap-1.1".
Definition soapPrefixTagUC : bytes := lit "<SOAP".
Definition soapPrefixTagLC : bytes := lit "<soap".

(* ================================================================= *)
(** * Namespace translator *)

Section Translator.
Context {K : SoapConsts}.

Definition replaceSoap12to11 (data : bytes) : bytes :=
  ReplaceAll data bNamespaceSoap12 bNamespaceSoap11.

Definition replaceSoap11to12 (data : bytes) : bytes :=
  ReplaceAll data bNamespaceSoap11 bNamespaceSoap12.

End Translator.

(* ================================================================= *)
(** * Errors *)

(** A Go error value, known by the text its [Error] method gives. *)
Record error : Type := errors_New { Error : bytes }.

(* ================================================================= *)
(** * Package encoding/xml: tokens and escaping *)

Record Name : Type := { Space : bytes; Local : bytes }.
Record Attr : Type := { AttrName : Name; AttrValue : bytes }.

Inductive Token : Type :=
| StartElement (name : Name) (attr : list Attr)
| EndElement (name : Name)
| CharData (data : bytes)
| Comment (data : bytes)
| ProcInst (target inst : bytes)
| Directive (data : bytes).

Definition isInCharacterRange (r : N) : bool :=
  ((r =? 0x09) || (r =? 0x0A) || (r =? 0x0D) ||
   ((0x20 <=? r) && (r <=? 0xD7FF)) ||
   ((0xE000 <=? r) && (r <=? 0xFFFD)) ||
   ((0x10000 <=? r) && (r <=? 0x10FFFF)))%N.

(** The replacement [EscapeText] writes for the rune [r] of width [width],
    if any. *)
Definition escapeOf (r : N) (width : nat) : option bytes :=
  if (r =? 0x22)%N then Some (lit "&#34;")
  else if (r =? 0x27)%N then Some (lit "&#39;")
  else if (r =? 0x26)%N then Some (lit "&amp;")
  else if (r =? 0x3C)%N then Some (lit "&lt;")
  else if (r =? 0x3E)%N then Some (lit "&gt;")
  else if (r =? 0x09)%N then Some (lit "&#x9;")
  else if (r =? 0x0A)%N then Some (lit "&#xA;")
  else if (r =? 0x0D)%N then Some (lit "&#xD;")
  else if negb (isInCharacterRange r) || ((r =? utf8.RuneError)%N && (width =? 1))
       then Some ["239"%char; "191"%char; "189"%char]
  else None.

(** [escapeFrom k keep s]: [k] bytes of the current rune are still to come,
    and are copied when [keep] holds. *)
Fixpoint escapeFrom (k : nat) (keep : bool) (s : bytes) : bytes :=
  match s with
  | [] => []
  | c :: s' =>
    match k with
    | S j => (if keep then [c] else []) ++ escapeFrom j keep s'
    | O =>
      let (r, width) := utf8.DecodeRune s in
      match escapeOf r width with
      | Some esc => esc ++ escapeFrom (width - 1) false s'
      | None => c :: escapeFrom (width - 1) true s'
      end
    end
  end.

Definition EscapeText (s : bytes) : bytes := escapeFrom 0 false s.

(* ================================================================= *)
(** * HTTP messages *)

(** [http.Header]: the values of each key, in the order they were added. *)
Definition Header := list (bytes * list bytes).

Fixpoint Header_Set (h : Header) (key value : bytes) : Header :=
  match h with
  | [] => [(key, [value])]
  | (k, vs) :: h' =>
    if bytes_eqb k key then (k, [value]) :: h'
    else (k, vs) :: Header_Set h' key value
  end.

Fixpoint Header_Add (h : Header) (key value : bytes) : Header :=
  match h with
  | [] => [(key, [value])]
  | (k, vs) :: h' =>
    if bytes_eqb k key then (k, vs ++ [value]) :: h'
    else (k, vs) :: Header_Add h' key value
  end.

Fixpoint Header_Get (h : Header) (key : bytes) : bytes :=
  match h with
  | [] => []
  | (k, vs) :: h' =>
    if bytes_eqb k key then hd [] vs else Header_Get h' key
  end.

(** [context.Context]: the nil context, or a live one. *)
Inductive Context : Type := nilContext | liveContext (id : nat).

(** A stream to read: the bytes it delivers, and the error that ends it
    when it does not end at EOF. *)
Record Reader : Type := { delivered : bytes; failure : option error }.

(** [ioutil.ReadAll]. *)
Definition ReadAll (r : Reader) : bytes * option error :=
  (delivered r, failure r).

(** What [NextPart] of a multipart reader gives, call after call; the end
    of the list is [io.EOF]. *)
Inductive NextPart : Type :=
| NextPartErr (e : error)
| NextPartOk (p : Reader).

Record Request : Type := {
  ReqCtx : Context;
  Method : bytes;
  ReqURL : bytes;
  ReqBody : bytes;
  ReqHeader : Header;
  Close : bool
}.

Record Response : Type := {
  Status : bytes;
  RespHeader : Header;
  RespBody : Reader
}.

(* ================================================================= *)
(** * Envelope, client and the Go library *)

Section Types.
Variable Value : Type.

(** Modelled from the spec: the Fault, Body and Envelope types, declared
    outside client.go.  A Fault has a code, a string and an optional
    detail; a Body holds a Content value and an optional Fault; an Envelope
    an optional Header and a Body.  [Content] is an interface value: [None]
    is nil, [Some v] a pointer whose pointee is now [v]. *)
Record Fault : Type := {
  FaultCode : bytes;
  FaultString : bytes;
  FaultDetail : option bytes
}.

Record Body : Type := {
  BodyFault : option Fault;
  Content : option Value
}.

Record Envelope : Type := {
  EnvHeader : option Value;
  EnvBody : Body
}.

(** XMLMarshaller lets you inject your favourite custom xml
    implementation.  [Unmarshal] writes through the pointers of its
    target: it gives the target as it has left it, and an error or nil. *)
Record XMLMarshaller : Type := {
  Marshal : Envelope -> bytes + error;
  Unmarshal : bytes -> Envelope -> Envelope * option error
}.

Record BasicAuth : Type := { Login : bytes; Password : bytes }.

(** The client.  Its [Log] field is not a field here: each call of it is
    an event of the trace of [Call]. *)
Record Client : Type := {
  url : bytes;
  tls : bool;
  auth : option BasicAuth;
  Marshaller : XMLMarshaller;
  UserAgent : bytes;
  ContentType : bytes;
  RequestHeaderFn : option (Header -> Header);
  SoapVersion : bytes;
  HTTPClientDoFn : Request -> Response + error
}.

(** The parts of the Go library that [Call] and [formatFaultXML] use,
    and the placeholder [dummyContent] of the package, declared outside
    client.go (its zero value is what [&dummyContent{}] points to).
    [xml_Tokens] is the sequence of tokens a fresh decoder gives until its
    first nil token or error; [url_Parse] is the error, if any, that
    [http.NewRequestWithContext] finds in the URL; [basicAuth] the
    credentials as [SetBasicAuth] encodes them; [multipart_NewReader] what
    the [NextPart] calls of a new multipart reader give. *)
Class Platform : Type := {
  dummyContent : Value;
  xml_Tokens : bytes -> list Token;
  xml_Unmarshal : bytes -> Envelope -> Envelope * option error;
  xml_MarshalIndent : Envelope -> bytes -> bytes -> bytes + error;
  url_Parse : bytes -> option error;
  basicAuth : bytes -> bytes -> bytes;
  http_DefaultClient_Do : Request -> Response + error;
  mime_ParseMediaType : bytes -> bytes * (bytes -> bytes) * option error;
  multipart_NewReader : Reader -> bytes -> list NextPart
}.

Inductive LogArg : Type :=
| LogText (s : bytes)
| LogHeader (h : Header)
| LogError (e : error).

(** What [Call] does to the world around it, in order. *)
Inductive Event : Type :=
| EvLog (args : list LogArg)
| EvDo (req : Request)
| EvXMLUnmarshal (data : bytes) (target : Envelope)
| EvBodyClose.

End Types.

Arguments BodyFault {Value}.
Arguments Content {Value}.
Arguments EnvHeader {Value}.
Arguments EnvBody {Value}.
Arguments Build_Body {Value}.
Arguments Build_Envelope {Value}.
Arguments Marshal {Value}.
Arguments Unmarshal {Value}.
Arguments Build_XMLMarshaller {Value}.
Arguments url {Value}.
Arguments tls {Value}.
Arguments auth {Value}.
Arguments Marshaller {Value}.
Arguments UserAgent {Value}.
Arguments ContentType {Value}.
Arguments RequestHeaderFn {Value}.
Arguments SoapVersion {Value}.
Arguments HTTPClientDoFn {Value}.
Arguments Build_Client {Value}.
Arguments dummyContent {Value Platform}.
Arguments xml_Tokens {Value Platform}.
Arguments xml_Unmarshal {Value Platform}.
Arguments xml_MarshalIndent {Value Platform}.
Arguments url_Parse {Value Platform}.
Arguments basicAuth {Value Platform}.
Arguments http_DefaultClient_Do {Value Platform}.
Arguments mime_ParseMediaType {Value Platform}.
Arguments multipart_NewReader {Value Platform}.
Arguments EvLog {Value}.
Arguments EvDo {Value}.
Arguments EvXMLUnmarshal {Value}.
Arguments EvBodyClose {Value}.

(* ================================================================= *)
(** * Package net/textproto and net/http: header keys, requests *)

Definition isUpper (c : ascii) : bool :=
  let n := nat_of_ascii c in (65 <=? n) && (n <=? 90).
Definition isLower (c : ascii) : bool :=
  let n := nat_of_ascii c in (97 <=? n) && (n <=? 122).
Definition isDigit (c : ascii) : bool :=
  let n := nat_of_ascii c in (48 <=? n) && (n <=? 57).

Definition validHeaderFieldByte (c : ascii) : bool :=
  isUpper c || isLower c || isDigit c || inCutset (lit "!#$%&'*+-.^_`|~") c.

Fixpoint canonicalFrom (upper : bool) (s : bytes) : bytes :=
  match s with
  | [] => []
  | c :: s' =>
    let c' := if upper && isLower c then ascii_of_nat (nat_of_ascii c - 32)
              else if negb upper && isUpper c then ascii_of_nat (nat_of_ascii c + 32)
              else c in
    c' :: canonicalFrom (Ascii.eqb c' "-"%char) s'
  end.

(** [textproto.CanonicalMIMEHeaderKey], under which [Header] stores and
    looks up its keys. *)
Definition CanonicalMIMEHeaderKey (s : bytes) : bytes :=
  if forallb validHeaderFieldByte s then canonicalFrom true s else s.

(* ================================================================= *)
(** * The client *)

(** Go's [int], on 64 bits. *)
Definition int (z : Z) : Z := ((z + 2 ^ 63) mod 2 ^ 64 - 2 ^ 63)%Z.

Section Client.
Context {Value : Type} {K : SoapConsts} {P : Platform Value}.

Definition defaultMarshaller : XMLMarshaller Value := {|
  Marshal := fun v => xml_MarshalIndent v [] TAB;
  Unmarshal := fun xmlBytes v => xml_Unmarshal xmlBytes v
|}.

(** NewClient constructor. SOAP 1.1 is used by default. *)
Definition NewClient (url : bytes) (auth : option BasicAuth) : Client Value := {|
  url := url;
  tls := false;
  auth := auth;
  Marshaller := defaultMarshaller;
  UserAgent := [];
  ContentType := SoapContentType11;
  RequestHeaderFn := None;
  SoapVersion := SoapVersion11;
  HTTPClientDoFn := http_DefaultClient_Do
|}.

Definition UseSoap11 (c : Client Value) : Client Value := {|
  url := url c; tls := tls c; auth := auth c; Marshaller := Marshaller c;
  UserAgent := UserAgent c;
  ContentType := SoapContentType11;
  RequestHeaderFn := RequestHeaderFn c;
  SoapVersion := SoapVersion11;
  HTTPClientDoFn := HTTPClientDoFn c
|}.

Definition UseSoap12 (c : Client Value) : Client Value := {|
  url := url c; tls := tls c; auth := auth c; Marshaller := Marshaller c;
  UserAgent := UserAgent c;
  ContentType := SoapContentType12;
  RequestHeaderFn := RequestHeaderFn c;
  SoapVersion := SoapVersion12;
  HTTPClientDoFn := HTTPClientDoFn c
|}.

(** ** The fault formatter *)

Record fmtState : Type := {
  level : Z;
  out : bytes;
  lastWasStart : bool;
  lastWasCharData : bool;
  lastWasEnd : bool
}.

Definition indent : bytes := TAB.

(** The closure [ind] of [formatFaultXML], at the running [level]. *)
Definition ind (startLevel level : Z) : bytes :=
  let n := if (int (int (level - startLevel) - 1) >? 0)%Z
           then int (int (level - startLevel) - 1) else 0%Z in
  Repeat indent (Z.to_nat n).

(** One turn of the token loop. *)
Definition fmtStep (startLevel : Z) (st : fmtState) (token : Token) : fmtState :=
  match token with
  | StartElement t _ =>
    let out1 := if lastWasEnd st || lastWasStart st then out st ++ LF else out st in
    let out2 := out1 ++ ind startLevel (level st) in
    let out3 := if (level st >? startLevel)%Z
                then (out2 ++ lit "<" ++ Local t) ++ lit ">" else out2 in
    {| level := int (level st + 1); out := out3;
       lastWasStart := true; lastWasCharData := false; lastWasEnd := false |}
  | CharData t =>
    {| level := level st; out := out st ++ EscapeText t;
       lastWasStart := false; lastWasCharData := true; lastWasEnd := false |}
  | EndElement t =>
    let level' := int (level st - 1) in
    let out1 := if lastWasEnd st then (out st ++ LF) ++ ind startLevel level' else out st in
    let out2 := if (level' >? startLevel)%Z
                then out1 ++ lit "</" ++ Local t ++ lit ">" else out1 in
    {| level := level'; out := out2;
       lastWasStart := false; lastWasCharData := lastWasCharData st; lastWasEnd := true |}
  | _ => st
  end.

(** Format the Soap Fault as indented string. Namespaces are dropped for
    better readability. *)
Definition formatFaultXML (xmlBytes : bytes) (startLevel : Z) : bytes :=
  let st0 := {| level := 0; out := [];
                lastWasStart := false; lastWasCharData := false; lastWasEnd := false |} in
  Trim (out (fold_left (fmtStep startLevel) (xml_Tokens xmlBytes) st0)) (lit " " ++ LF).

(** ** Call: state, early return and the trace *)

(** What a call can change and show: the value the caller's [response]
    points to ([None] when the caller passed nil), and the events so far,
    latest first. *)
Record World : Type := {
  responseValue : option Value;
  trace : list (Event Value)
}.

(** The two values [Call] returns. *)
Definition result : Type := option Response * option error.

Inductive step (A : Type) : Type :=
| Next (a : A)
| Return (r : result).
Arguments Next {A}.
Arguments Return {A}.

Definition M (A : Type) : Type := World -> step A * World.

Definition ret {A} (a : A) : M A := fun w => (Next a, w).
Definition exit {A} (r : result) : M A := fun w => (Return r, w).
Definition bind {A B} (m : M A) (k : A -> M B) : M B :=
  fun w => match m w with
           | (Next a, w') => k a w'
           | (Return r, w') => (Return r, w')
           end.

Definition emit (e : Event Value) : M unit :=
  fun w => (Next tt, {| responseValue := responseValue w; trace := e :: trace w |}).
Definition Log (args : list LogArg) : M unit := emit (EvLog args).
Definition store (v : Value) : M unit :=
  fun w => (Next tt, {| responseValue := Some v; trace := trace w |}).

(** [if err != nil { return nil, err }]. *)
Definition orReturn {A} (x : A + error) : M A :=
  match x with
  | inl a => ret a
  | inr err => exit (None, Some err)
  end.

(** [defer]: the event happens when the rest of the function is left,
    whichever way. *)
Definition defer {A} (e : Event Value) (m : M A) : M A :=
  fun w => let (r, w') := m w in
           (r, {| responseValue := responseValue w'; trace := e :: trace w' |}).

Definition run (m : M result) (w : World) : result * World :=
  match m w with
  | (Next r, w') => (r, w')
  | (Return r, w') => (r, w')
  end.

End Client.

Arguments Next {A}.
Arguments Return {A}.
Arguments M Value A : clear implicits.
Arguments World Value : clear implicits.

Declare Scope call_scope.
Delimit Scope call_scope with call.
Notation "x <- m ;; k" := (bind m (fun x => k))
  (at level 61, m at next level, right associativity) : call_scope.
Notation "m ;; k" := (bind m (fun _ => k))
  (at level 61, right associativity) : call_scope.

Section Call.
Context {Value : Type} {K : SoapConsts} {P : Platform Value}.
Local Open Scope call_scope.

(** [http.NewRequestWithContext] for a valid method. *)
Definition NewRequestWithContext (ctx : Context) (method url body : bytes)
  : Request + error :=
  match ctx with
  | nilContext => inr (errors_New (lit "net/http: nil Context"))
  | liveContext _ =>
    match url_Parse url with
    | Some err => inr err
    | None => inl {| ReqCtx := ctx; Method := method; ReqURL := url;
                     ReqBody := body; ReqHeader := []; Close := false |}
    end
  end.

Definition withHeader (req : Request) (h : Header) : Request :=
  {| ReqCtx := ReqCtx req; Method := Method req; ReqURL := ReqURL req;
     ReqBody := ReqBody req; ReqHeader := h; Close := Close req |}.

Definition isSoapy (slurp : bytes) : bool :=
  HasPrefix slurp soapPrefixTagLC || HasPrefix slurp soapPrefixTagUC.

(** The loop over the parts of a multipart message: search for the soapy
    part.  [None] is [foundSoap == false] at the end of the stream. *)
Fixpoint soapyPart (parts : list NextPart) : M Value (option bytes) :=
  match parts with
  | [] => ret None
  | NextPartErr err :: _ => exit (None, Some err)
  | NextPartOk p :: rest =>
    let (slurp, err) := ReadAll p in
    match err with
    | Some err => exit (None, Some err)
    | None => if isSoapy slurp then ret (Some slurp) else soapyPart rest
    end
  end.

(** The body of the response, multipart or single part (the [if] on the
    media type). *)
Definition readBody (httpResponse : Response) (mediaType : bytes)
           (params : bytes -> bytes) : M Value bytes :=
  if HasPrefix mediaType (lit "multipart/")
  then
    let mr := multipart_NewReader (RespBody httpResponse) (params (lit "boundary")) in
    found <- soapyPart mr ;;
    match found with
    | Some rawBody => ret rawBody
    | None =>
      exit (None, Some (errors_New (lit "multipart message does contain a soapy part")))
    end
  else
    let (rawBody, err) := ReadAll (RespBody httpResponse) in
    match err with
    | Some err => exit (Some httpResponse, Some err)
    | None =>
      if length rawBody =? 0
      then
        Log [LogText (lit "INFO: Response Body is empty!")] ;;
        exit (Some httpResponse, None)
      else if negb (Contains rawBody soapPrefixTagLC || Contains rawBody soapPrefixTagUC)
      then
        Log [LogText (lit "This is not a SOAP-Message: " ++ LF); LogText rawBody] ;;
        exit (None, Some (errors_New ((lit "This is not a SOAP-Message: " ++ LF) ++ rawBody)))
      else
        Log [LogText (lit "RAWBODY" ++ LF); LogText rawBody] ;;
        ret rawBody
    end.

(** From the namespace adjustment of the response to the end. *)
Definition decode (httpResponse : Response) (response : option Value)
           (rawBody : bytes) : M Value result :=
  let rawBody := replaceSoap12to11 rawBody in
  let respEnvelope :=
    {| EnvHeader := None;
       EnvBody := {| BodyFault := None; Content := response |} |} in
  let respEnvelope :=
    match response with
    | None => {| EnvHeader := EnvHeader respEnvelope;
                 EnvBody := {| BodyFault := None; Content := Some dummyContent |} |}
    | Some _ => respEnvelope
    end in
  emit (EvXMLUnmarshal rawBody respEnvelope) ;;
  let (decoded, err) := xml_Unmarshal rawBody respEnvelope in
  match response, Content (EnvBody decoded) with
  | Some _, Some v => store v
  | _, _ => ret tt
  end ;;
  match err with
  | Some err =>
    exit (None, Some (errors_New
      ((lit "soap/client.go Call(): COULD NOT UNMARSHAL: " ++ Error err) ++ LF)))
  | None =>
    match BodyFault (EnvBody decoded) with
    | Some fault =>
      exit (None, Some (errors_New
        ((lit "SOAP FAULT:" ++ LF) ++ formatFaultXML rawBody 1)))
    | None => ret (Some httpResponse, None)
    end
  end.

(** The envelope of a request or response value. *)
Definition envelopeOf (content : option Value) : Envelope Value :=
  {| EnvHeader := None;
     EnvBody := {| BodyFault := None; Content := content |} |}.

(** The start of [Call]: the request is marshalled, and its namespaces
    are adjusted for SOAP 1.2. *)
Definition encode (c : Client Value) (request : option Value) : bytes + error :=
  let envelope := envelopeOf request in
  match Marshal (Marshaller c) envelope with
  | inr err => inr err
  | inl xmlBytes =>
    inl (if bytes_eqb (SoapVersion c) SoapVersion12
         then replaceSoap11to12 xmlBytes else xmlBytes)
  end.

(** The HTTP request, from [http.NewRequestWithContext] to the call of
    [RequestHeaderFn]. *)
Definition newRequest (c : Client Value) (ctx : Context) (soapAction xmlBytes : bytes)
  : Request + error :=
  match NewRequestWithContext ctx (lit "POST") (url c) xmlBytes with
  | inr err => inr err
  | inl req =>
    let h := ReqHeader req in
    let h := match auth c with
             | Some a => Header_Set h (CanonicalMIMEHeaderKey (lit "Authorization"))
                           (lit "Basic " ++ basicAuth (Login a) (Password a))
             | None => h
             end in
    let h := Header_Add h (CanonicalMIMEHeaderKey (lit "Content-Type")) (ContentType c) in
    let ua := if length (UserAgent c) =? 0 then userAgent else UserAgent c in
    let h := Header_Set h (CanonicalMIMEHeaderKey (lit "User-Agent")) ua in
    let h := if negb (length soapAction =? 0)
             then Header_Add h (CanonicalMIMEHeaderKey (lit "SOAPAction")) soapAction
             else h in
    let req := {| ReqCtx := ReqCtx req; Method := Method req; ReqURL := ReqURL req;
                  ReqBody := ReqBody req; ReqHeader := h; Close := true |} in
    inl match RequestHeaderFn c with
        | Some f => withHeader req (f (ReqHeader req))
        | None => req
        end
  end.

(** The media type of a response, as [mime.ParseMediaType] gives it. *)
Definition mediaTypeOf (httpResponse : Response)
  : bytes * (bytes -> bytes) * option error :=
  mime_ParseMediaType
    (Header_Get (RespHeader httpResponse) (CanonicalMIMEHeaderKey (lit "Content-Type"))).

(** What [Call] does with the response of the transport. *)
Definition respond (httpResponse : Response) (response : option Value) : M Value result :=
  Log [LogText (LF ++ LF ++ lit "## Response header:" ++ LF);
       LogHeader (RespHeader httpResponse)] ;;
  let '(mediaType, params, err) := mediaTypeOf httpResponse in
  match err with
  | Some err => Log [LogText (lit "WARNING:"); LogError err]
  | None => ret tt
  end ;;
  Log [LogText (lit "MIMETYPE:"); LogText mediaType] ;;
  rawBody <- readBody httpResponse mediaType params ;;
  Log [LogText (LF ++ LF ++ lit "## Response body:" ++ LF); LogText rawBody] ;;
  decode httpResponse response rawBody.

(** Call makes a SOAP call. *)
Definition CallM (c : Client Value) (ctx : Context) (soapAction : bytes)
           (request response : option Value) : M Value result :=
  xmlBytes <- orReturn (encode c request) ;;
  req <- orReturn (newRequest c ctx soapAction xmlBytes) ;;
  Log [LogText (lit "POST to"); LogText (url c); LogText (lit "with" ++ LF);
       LogText xmlBytes] ;;
  Log [LogText (lit "Header"); LogHeader (ReqHeader req)] ;;
  emit (EvDo req) ;;
  httpResponse <- orReturn (HTTPClientDoFn c req) ;;
  defer EvBodyClose (respond httpResponse response).

(** The two values [Call] returns, and the world it leaves: the caller's
    response value and the trace. *)
Definition Call (c : Client Value) (ctx : Context) (soapAction : bytes)
           (request response : option Value) : result * World Value :=
  run (CallM c ctx soapAction request response)
      {| responseValue := response; trace := [] |}.

(** ** The configuration surface *)

(** A write to the exported field [Marshaller]: the same [Marshal], and
    [Unmarshal] replaced. *)
Definition withUnmarshal (c : Client Value)
           (u : bytes -> Envelope Value -> Envelope Value * option error)
  : Client Value := {|
  url := url c; tls := tls c; auth := auth c;
  Marshaller := {| Marshal := Marshal (Marshaller c); Unmarshal := u |};
  UserAgent := UserAgent c; ContentType := ContentType c;
  RequestHeaderFn := RequestHeaderFn c; SoapVersion := SoapVersion c;
  HTTPClientDoFn := HTTPClientDoFn c
|}.

(** The line of the log that shows the body of the response, as read. *)
Definition bodyLogged (rawBody : bytes) : Event Value :=
  EvLog [LogText (LF ++ LF ++ lit "## Response body:" ++ LF); LogText rawBody].

(** The version and the content type of a client go together. *)
Definition paired (c : Client Value) : Prop :=
  (SoapVersion c = SoapVersion11 <-> ContentType c = SoapContentType11) /\
  (SoapVersion c = SoapVersion12 <-> ContentType c = SoapContentType12).

(** The clients that come out of the constructor or of a version
    selector. *)
Inductive Configured : Client Value -> Prop :=
| cfg_NewClient (url : bytes) (auth : option BasicAuth) :
    Configured (NewClient url auth)
| cfg_UseSoap11 (c : Client Value) : Configured (UseSoap11 c)
| cfg_UseSoap12 (c : Client Value) : Configured (UseSoap12 c).

(** A part the multipart loop reads and passes over. *)
Definition passedOver (x : NextPart) : bool :=
  match x with
  | NextPartErr _ => false
  | NextPartOk p =>
    match failure p with
    | Some _ => false
    | None => negb (isSoapy (delivered p))
    end
  end.

End Call.

(* ================================================================= *)
(** * A model of the library, to run the client on concrete messages *)

(** The general theorems below hold for every [Platform].  To evaluate
    [Call] and [formatFaultXML] on concrete messages, [GoModel] gives one:
    an XML tokenizer after encoding/xml's strict decoder for documents made
    of start tags with quoted attributes, end tags, empty-element tags and
    character data with the five predefined entities (anything else ends
    the token stream there with an error), and small stand-ins for the
    envelope decoder and encoder, the media type parser and the multipart
    reader.  Values behind [interface{}] are byte strings. *)
Module GoModel.

Definition QUOT : ascii := "034"%char.
Definition CR : ascii := "013"%char.
Definition NL : ascii := "010"%char.

Definition isNameByte (c : ascii) : bool :=
  isUpper c || isLower c || isDigit c || inCutset (lit "_:.-") c.
Definition isNameStart (c : ascii) : bool :=
  isUpper c || isLower c || inCutset (lit "_:") c.
Definition isSpace (c : ascii) : bool :=
  inCutset (" "%char :: CR :: NL :: TAB) c.
Definition isASCII (c : ascii) : bool := nat_of_ascii c <? 128.

Fixpoint span (f : ascii -> bool) (s : bytes) : bytes * bytes :=
  match s with
  | [] => ([], [])
  | c :: s' =>
    if f c then let (x, y) := span f s' in (c :: x, y) else ([], s)
  end.

Definition skipSpace (s : bytes) : bytes := snd (span isSpace s).

(** A name of ASCII name bytes; [None] where the decoder fails, or where
    the name goes on with bytes outside ASCII. *)
Definition readName (s : bytes) : option (bytes * bytes) :=
  let (n, rest) := span isNameByte s in
  match n, rest with
  | [], _ => None
  | c :: _, [] => if isNameStart c then Some (n, rest) else None
  | c :: _, d :: _ => if isNameStart c && isASCII d then Some (n, rest) else None
  end.

Fixpoint cut (s : bytes) (sep : ascii) : option (bytes * bytes) :=
  match s with
  | [] => None
  | c :: s' =>
    if Ascii.eqb c sep then Some ([], s')
    else match cut s' sep with
         | Some (x, y) => Some (c :: x, y)
         | None => None
         end
  end.

(** The prefix and the local part of a name; [Space] stays the prefix as
    written. *)
Definition nsname (s : bytes) : Name :=
  if 1 <? count_occ ascii_dec s ":"%char then {| Space := []; Local := s |}
  else
    match cut s ":"%char with
    | Some ((_ :: _) as space, (_ :: _) as local) => {| Space := space; Local := local |}
    | _ => {| Space := []; Local := s |}
    end.

Definition name_eqb (x y : Name) : bool :=
  bytes_eqb (Space x) (Space y) && bytes_eqb (Local x) (Local y).

Definition entity (s : bytes) : option (ascii * bytes) :=
  if HasPrefix s (lit "lt;") then Some ("<"%char, skipn 3 s)
  else if HasPrefix s (lit "gt;") then Some (">"%char, skipn 3 s)
  else if HasPrefix s (lit "amp;") then Some ("&"%char, skipn 4 s)
  else if HasPrefix s (lit "apos;") then Some ("'"%char, skipn 5 s)
  else if HasPrefix s (lit "quot;") then Some (QUOT, skipn 5 s)
  else None.

(** Text up to [<] (character data, [quote = None]) or up to the closing
    quote (an attribute value): entities decoded, line ends normalised;
    [skip] counts bytes already consumed by the step before. *)
Fixpoint readText (quote : option ascii) (skip : nat) (s : bytes)
  : option (bytes * bytes) :=
  match s with
  | [] => match quote with None => Some ([], []) | Some _ => None end
  | c :: s' =>
    match skip with
    | S k =>
      match readText quote k s' with
      | Some (x, y) => Some (x, y)
      | None => None
      end
    | O =>
      let copy (d : ascii) (k : nat) :=
        match readText quote k s' with
        | Some (x, y) => Some (d :: x, y)
        | None => None
        end in
      match quote with
      | Some q =>
        if Ascii.eqb c q then Some ([], s)
        else if Ascii.eqb c "<"%char then None
        else if Ascii.eqb c "&"%char
             then match entity s' with
                  | Some (d, rest) => copy d (length s' - length rest)
                  | None => None
                  end
        else if Ascii.eqb c CR
             then copy NL (if HasPrefix s' [NL] then 1 else 0)
        else copy c 0
      | None =>
        if Ascii.eqb c "<"%char then Some ([], s)
        else if HasPrefix s (lit "]]>") then None
        else if Ascii.eqb c "&"%char
             then match entity s' with
                  | Some (d, rest) => copy d (length s' - length rest)
                  | None => None
                  end
        else if Ascii.eqb c CR
             then copy NL (if HasPrefix s' [NL] then 1 else 0)
        else copy c 0
      end
    end
  end.

(** Every rune is well encoded and is an XML character. *)
Fixpoint validRunes (k : nat) (s : bytes) : bool :=
  match s with
  | [] => true
  | _ :: s' =>
    match k with
    | S j => validRunes j s'
    | O =>
      let (r, width) := utf8.DecodeRune s in
      negb ((r =? utf8.RuneError)%N && (width =? 1)) &&
      isInCharacterRange r && validRunes (width - 1) s'
    end
  end.

(** The attributes of a start tag, whether it closes itself, and the
    rest. *)
Fixpoint readAttrs (fuel : nat) (s : bytes) : option (list Attr * bool * bytes) :=
  match fuel with
  | O => None
  | S fuel' =>
    match skipSpace s with
    | ">"%char :: rest => Some ([], false, rest)
    | "/"%char :: ">"%char :: rest => Some ([], true, rest)
    | s1 =>
      match readName s1 with
      | None => None
      | Some (n, s2) =>
        match skipSpace s2 with
        | "="%char :: s3 =>
          match skipSpace s3 with
          | q :: s4 =>
            if Ascii.eqb q "'"%char || Ascii.eqb q QUOT
            then
              match readText (Some q) 0 s4 with
              | Some (v, _ :: s5) =>
                if validRunes 0 v
                then
                  match readAttrs fuel' s5 with
                  | Some (attrs, selfClose, rest) =>
                    Some ({| AttrName := nsname n; AttrValue := v |} :: attrs,
                          selfClose, rest)
                  | None => None
                  end
                else None
              | _ => None
              end
            else None
          | [] => None
          end
        | _ => None
        end
      end
    end
  end.

Definition syntaxError : error := errors_New (lit "XML syntax error").

(** The tokens up to the end of the input or to the first error; [stk]
    holds the names of the open elements. *)
Fixpoint tokensFrom (fuel : nat) (stk : list Name) (s : bytes)
  : list Token * option error :=
  match fuel with
  | O => ([], Some syntaxError)
  | S fuel' =>
    match s with
    | [] => ([], match stk with [] => None | _ :: _ => Some syntaxError end)
    | "<"%char :: "/"%char :: s1 =>
      match readName s1 with
      | None => ([], Some syntaxError)
      | Some (n, s2) =>
        match skipSpace s2, stk with
        | ">"%char :: s3, top :: stk' =>
          if name_eqb top (nsname n)
          then let (ts, e) := tokensFrom fuel' stk' s3 in
               (EndElement (nsname n) :: ts, e)
          else ([], Some syntaxError)
        | _, _ => ([], Some syntaxError)
        end
      end
    | "<"%char :: s1 =>
      match readName s1 with
      | None => ([], Some syntaxError)
      | Some (n, s2) =>
        match readAttrs (S (length s2)) s2 with
        | None => ([], Some syntaxError)
        | Some (attrs, true, s3) =>
          let (ts, e) := tokensFrom fuel' stk s3 in
          (StartElement (nsname n) attrs :: EndElement (nsname n) :: ts, e)
        | Some (attrs, false, s3) =>
          let (ts, e) := tokensFrom fuel' (nsname n :: stk) s3 in
          (StartElement (nsname n) attrs :: ts, e)
        end
      end
    | _ :: _ =>
      match readText None 0 s with
      | Some (t, rest) =>
        if validRunes 0 t
        then let (ts, e) := tokensFrom fuel' stk rest in (CharData t :: ts, e)
        else ([], Some syntaxError)
      | None => ([], Some syntaxError)
      end
    end
  end.

Definition tokenize (s : bytes) : list Token * option error :=
  tokensFrom (S (length s)) [] s.

(** *** The envelope decoder and encoder *)

Definition attrValue (name : Name) (attrs : list Attr) : bytes :=
  match find (fun a => name_eqb (AttrName a) name) attrs with
  | Some a => AttrValue a
  | None => []
  end.

(** The namespace of an element, from the declarations on the element
    itself. *)
Definition namespaceOf (n : Name) (attrs : list Attr) : bytes :=
  match Space n with
  | [] => attrValue {| Space := []; Local := lit "xmlns" |} attrs
  | prefix => attrValue {| Space := lit "xmlns"; Local := prefix |} attrs
  end.

Fixpoint firstStart (ts : list Token) : option (Name * list Attr) :=
  match ts with
  | [] => None
  | StartElement n attrs :: _ => Some (n, attrs)
  | _ :: ts' => firstStart ts'
  end.

Fixpoint starts (ts : list Token) : list bytes :=
  match ts with
  | [] => []
  | StartElement n _ :: ts' => Local n :: starts ts'
  | _ :: ts' => starts ts'
  end.

Fixpoint follows (x y : bytes) (names : list bytes) : bool :=
  match names with
  | a :: ((b :: _) as rest) => (bytes_eqb a x && bytes_eqb b y) || follows x y rest
  | _ => false
  end.

Fixpoint textOf (local : bytes) (ts : list Token) : bytes :=
  match ts with
  | StartElement n _ :: ((CharData t :: _) as ts') =>
    if bytes_eqb (Local n) local then t else textOf local ts'
  | _ :: ts' => textOf local ts'
  | [] => []
  end.

Fixpoint charData (ts : list Token) : bytes :=
  match ts with
  | [] => []
  | CharData t :: ts' => t ++ charData ts'
  | _ :: ts' => charData ts'
  end.

Definition Unmarshal {K : SoapConsts} (data : bytes) (v : Envelope bytes)
  : Envelope bytes * option error :=
  match tokenize data with
  | (_, Some err) => (v, Some err)
  | (ts, None) =>
    match firstStart ts with
    | None => (v, Some (errors_New (lit "EOF")))
    | Some (n, attrs) =>
      if bytes_eqb (Local n) (lit "Envelope") &&
         bytes_eqb (namespaceOf n attrs) bNamespaceSoap11
      then
        if follows (lit "Body") (lit "Fault") (starts ts)
        then ({| EnvHeader := EnvHeader v;
                 EnvBody := {| BodyFault :=
                                 Some {| FaultCode := textOf (lit "faultcode") ts;
                                         FaultString := textOf (lit "faultstring") ts;
                                         FaultDetail := None |};
                               Content := Content (EnvBody v) |} |}, None)
        else ({| EnvHeader := EnvHeader v;
                 EnvBody := {| BodyFault := BodyFault (EnvBody v);
                               Content := match Content (EnvBody v) with
                                          | Some _ => Some (charData ts)
                                          | None => None
                                          end |} |}, None)
      else (v, Some (errors_New
              (lit "expected element <Envelope> in name space " ++ bNamespaceSoap11)))
    end
  end.

Definition MarshalIndent {K : SoapConsts} (v : Envelope bytes) (prefix indent : bytes)
  : bytes + error :=
  let xmlns := lit " xmlns=" ++ [QUOT] ++ bNamespaceSoap11 ++ [QUOT] in
  inl (prefix ++ lit "<Envelope" ++ xmlns ++ lit ">" ++ LF ++
       prefix ++ indent ++ lit "<Body" ++ xmlns ++ lit ">" ++ LF ++
       match Content (EnvBody v) with
       | Some content => prefix ++ indent ++ indent ++ content ++ LF
       | None => []
       end ++
       prefix ++ indent ++ lit "</Body>" ++ LF ++
       prefix ++ lit "</Envelope>").

(** *** The media type parser and the multipart reader *)

Definition toLower (s : bytes) : bytes :=
  map (fun c => if isUpper c then ascii_of_nat (nat_of_ascii c + 32) else c) s.

(** The text after the first occurrence of [pat]. *)
Fixpoint after (pat s : bytes) : option bytes :=
  if HasPrefix s pat then Some (skipn (length pat) s)
  else match s with
       | [] => None
       | _ :: s' => after pat s'
       end.

(** The text before the first occurrence of [pat], and the text after it. *)
Fixpoint splitAt (pat s : bytes) : option (bytes * bytes) :=
  if HasPrefix s pat then Some ([], skipn (length pat) s)
  else match s with
       | [] => None
       | c :: s' =>
         match splitAt pat s' with
         | Some (x, y) => Some (c :: x, y)
         | None => None
         end
       end.

Definition ParseMediaType (v : bytes) : bytes * (bytes -> bytes) * option error :=
  let (base, rest) := span (fun c => negb (Ascii.eqb c ";"%char)) v in
  let mediatype := toLower (Trim base (lit " ")) in
  match mediatype with
  | [] => ([], fun _ => [], Some (errors_New (lit "mime: no media type")))
  | _ :: _ =>
    (mediatype,
     fun key =>
       match after (toLower key ++ lit "=") rest with
       | Some value =>
         Trim (fst (span (fun c => negb (Ascii.eqb c ";"%char)) value)) [QUOT]
       | None => []
       end,
     None)
  end.

Definition CRLF : bytes := [CR; NL].

(** The parts that follow a delimiter line: each is its header lines, an
    empty line, and its content up to the next delimiter. *)
Fixpoint partsFrom (fuel : nat) (delim : bytes) (failure : option error) (s : bytes)
  : list NextPart :=
  let broken :=
    [NextPartErr match failure with
                 | Some err => err
                 | None => errors_New (lit "multipart: NextPart: EOF")
                 end] in
  match fuel with
  | O => broken
  | S fuel' =>
    if HasPrefix s (lit "--") then []
    else
      match splitAt (CRLF ++ CRLF) s with
      | None => broken
      | Some (_, s1) =>
        match splitAt (CRLF ++ delim) s1 with
        | None => broken
        | Some (content, s2) =>
          NextPartOk {| delivered := content; failure := None |}
            :: partsFrom fuel' delim failure s2
        end
      end
  end.

Definition NewReader (r : Reader) (boundary : bytes) : list NextPart :=
  let delim := lit "--" ++ boundary in
  match splitAt delim (delivered r) with
  | None => partsFrom 0 delim (failure r) []
  | Some (_, s) => partsFrom (length s) delim (failure r) s
  end.

(** *** The platform *)

Definition Parse (url : bytes) : option error :=
  if Contains url (lit " ")
  then Some (errors_New (lit "parse: invalid character in URL"))
  else None.

(** A server that answers nothing. *)
Definition Do (req : Request) : Response + error :=
  inr (errors_New (lit "dial tcp: connection refused")).

Definition platform {K : SoapConsts} : Platform bytes := {|
  dummyContent := [];
  xml_Tokens := fun s => fst (tokenize s);
  xml_Unmarshal := Unmarshal;
  xml_MarshalIndent := MarshalIndent;
  url_Parse := Parse;
  basicAuth := fun login password => login ++ lit ":" ++ password;
  http_DefaultClient_Do := Do;
  mime_ParseMediaType := ParseMediaType;
  multipart_NewReader := NewReader
|}.

End GoModel.

(* ================================================================= *)
(** * Sample clients, servers and messages *)

Module Samples.

Definition lib : Platform bytes := @GoModel.platform w3c.

Definition answer (contentType : bytes) (body : Reader) : Response :=
  {| Status := lit "200 OK";
     RespHeader := [(lit "Content-Type", [contentType])];
     RespBody := body |}.

(** A transport that answers every request with the same body. *)
Definition server (contentType : bytes) (body : Reader) (req : Request)
  : Response + error :=
  inl (answer contentType body).

Definition withTransport (c : Client bytes) (f : Request -> Response + error)
  : Client bytes := {|
  url := url c; tls := tls c; auth := auth c; Marshaller := Marshaller c;
  UserAgent := UserAgent c; ContentType := ContentType c;
  RequestHeaderFn := RequestHeaderFn c; SoapVersion := SoapVersion c;
  HTTPClientDoFn := f
|}.

Definition withMarshaller (c : Client bytes) (m : XMLMarshaller bytes)
  : Client bytes := {|
  url := url c; tls := tls c; auth := auth c; Marshaller := m;
  UserAgent := UserAgent c; ContentType := ContentType c;
  RequestHeaderFn := RequestHeaderFn c; SoapVersion := SoapVersion c;
  HTTPClientDoFn := HTTPClientDoFn c
|}.

Definition sent (body : bytes) : Reader := {| delivered := body; failure := None |}.

(** A client of the default version whose server answers [body] under
    the Content-Type [contentType]. *)
Definition client (contentType : bytes) (body : Reader) : Client bytes :=
  withTransport (@NewClient bytes w3c lib (lit "http://127.0.0.1:8080/") None)
                (server contentType body).

Definition call (c : Client bytes) (response : option bytes) : result * World bytes :=
  @Call bytes w3c lib c (liveContext 0) (lit "operationFoo")
        (Some (lit "<fooRequest><Foo>hello i am foo</Foo></fooRequest>")) response.

Definition textXML : bytes := lit "text/xml; charset=utf-8".

(** The fragment of the fault formatter's example, and its tokens. *)
Definition fragment : bytes :=
  lit "<soap:Fault><faultcode>A</faultcode><faultstring>B</faultstring></soap:Fault>".

Definition el (space local : string) : Name :=
  {| Space := lit space; Local := lit local |}.

Definition fragmentTokens : list Token :=
  [ StartElement (el "soap" "Fault") [];
    StartElement (el "" "faultcode") []; CharData (lit "A");
    EndElement (el "" "faultcode");
    StartElement (el "" "faultstring") []; CharData (lit "B");
    EndElement (el "" "faultstring");
    EndElement (el "soap" "Fault") ].

(** A SOAP 1.2 fault whose text names the 1.2 namespace. *)
Definition fault12 : bytes :=
  lit "<soap:Envelope xmlns:soap='http://www.w3.org/2003/05/soap-envelope'><soap:Body><soap:Fault><faultcode>soap:VersionMismatch</faultcode><faultstring>expected http://www.w3.org/2003/05/soap-envelope</faultstring></soap:Fault></soap:Body></soap:Envelope>".

(** A SOAP 1.1 answer. *)
Definition answer11 : bytes :=
  lit "<soap:Envelope xmlns:soap='http://schemas.xmlsoap.org/soap/envelope/'><soap:Body><FooResponse><Bar>hi</Bar></FooResponse></soap:Body></soap:Envelope>".

(** A multipart message of two parts, the second one the answer. *)
Definition twoParts : bytes :=
  lit "--xyz" ++ GoModel.CRLF ++ lit "Content-Type: text/plain" ++ GoModel.CRLF ++
  GoModel.CRLF ++ lit "an attachment" ++ GoModel.CRLF ++
  lit "--xyz" ++ GoModel.CRLF ++ GoModel.CRLF ++ answer11 ++ GoModel.CRLF ++
  lit "--xyz--" ++ GoModel.CRLF.

Definition multipartRelated : bytes := lit "multipart/related; boundary=xyz".

(** A marshaller of the caller's own, whose [Unmarshal] refuses every
    document. *)
Definition refusing : XMLMarshaller bytes := {|
  Marshal := fun v => @GoModel.MarshalIndent w3c v [] TAB;
  Unmarshal := fun _ v => (v, Some (errors_New (lit "refused")))
|}.

End Samples.

(* ================================================================= *)
(** * Notions used to state further properties *)

(** [overlap_free x y]: no non-empty suffix of [x] is a prefix of [y], so
    an occurrence of [y] never begins inside an occurrence of [x] and runs
    past its end. *)
Definition overlap_free (x y : bytes) : bool :=
  forallb (fun k => negb (HasPrefix y (skipn k x))) (seq 0 (length x)).

(** No occurrence of [a] begins in [u], in the text [u ++ s]. *)
Definition none_begins_in (a u s : bytes) : Prop :=
  forall u1 u2, u = u1 ++ u2 -> u2 <> [] -> HasPrefix (u2 ++ s) a = false.

(** What the fault formatter looks at in a token: the local name of a start
    or end element and the character data; nothing of the other tokens. *)
Definition plainToken (t : Token) : list Token :=
  match t with
  | StartElement n _ => [StartElement {| Space := []; Local := Local n |} []]
  | EndElement n => [EndElement {| Space := []; Local := Local n |}]
  | CharData d => [CharData d]
  | Comment _ | ProcInst _ _ | Directive _ => []
  end.

Definition plainTokens (ts : list Token) : list Token := flat_map plainToken ts.

Section Observations.
Context {Value : Type}.

(** A write to the exported field [RequestHeaderFn]. *)
Definition withHook (c : Client Value) (hook : option (Header -> Header))
  : Client Value := {|
  url := url c; tls := tls c; auth := auth c; Marshaller := Marshaller c;
  UserAgent := UserAgent c; ContentType := ContentType c;
  RequestHeaderFn := hook; SoapVersion := SoapVersion c;
  HTTPClientDoFn := HTTPClientDoFn c
|}.

(** The requests handed to the transport in a trace, latest first. *)
Fixpoint requests (tr : list (Event Value)) : list Request :=
  match tr with
  | [] => []
  | EvDo req :: tr' => req :: requests tr'
  | _ :: tr' => requests tr'
  end.

(** How many times the body of the response was closed in a trace. *)
Fixpoint closes (tr : list (Event Value)) : nat :=
  match tr with
  | [] => 0
  | EvBodyClose :: tr' => S (closes tr')
  | _ :: tr' => closes tr'
  end.

(** The documents handed to the decoder in a trace, latest first. *)
Fixpoint decoded (tr : list (Event Value)) : list (bytes * Envelope Value) :=
  match tr with
  | [] => []
  | EvXMLUnmarshal data target :: tr' => (data, target) :: decoded tr'
  | _ :: tr' => decoded tr'
  end.

End Observations.

Section BodyRead.
Context {Value : Type} {P : Platform Value}.

(** The body [Call] goes on with after it has read the response, the
    media type and its parameters being [mediaType] and [params]: the soapy
    part of a multipart message, or a single-part body that is not empty and
    holds a SOAP tag; [None] where [Call] returns instead. *)
Definition bodyRead (httpResponse : Response) (mediaType : bytes)
           (params : bytes -> bytes) : option bytes :=
  match fst (@readBody Value P httpResponse mediaType params
               {| responseValue := None; trace := [] |}) with
  | Next rawBody => Some rawBody
  | Return _ => None
  end.

End BodyRead.

(* ================================================================= *)
(** * More sample clients and messages *)

Module MoreSamples.

Definition credentials : BasicAuth := {| Login := lit "user"; Password := lit "secret" |}.

(** A client with credentials, a user agent of its own, and a server that
    answers [Samples.answer11]. *)
Definition authClient : Client bytes := {|
  url := lit "http://127.0.0.1:8080/"; tls := false; auth := Some credentials;
  Marshaller := @defaultMarshaller bytes Samples.lib;
  UserAgent := lit "my-agent"; ContentType := @SoapContentType11 w3c;
  RequestHeaderFn := None; SoapVersion := @SoapVersion11 w3c;
  HTTPClientDoFn := Samples.server Samples.textXML (Samples.sent Samples.answer11)
|}.

(** A header hook that overrides the content type. *)
Definition hook (h : Header) : Header :=
  Header_Set h (lit "Content-Type") (lit "application/xml").

Definition hookClient : Client bytes :=
  withHook (Samples.client Samples.textXML (Samples.sent Samples.answer11)) (Some hook).

Definition answering : Client bytes :=
  Samples.client Samples.textXML (Samples.sent Samples.answer11).

(** A client of the constructor, whose transport reaches no server. *)
Definition offline : Client bytes :=
  @NewClient bytes w3c Samples.lib (lit "http://127.0.0.1:8080/") None.

(** An envelope that is never closed. *)
Definition brokenXML : bytes := lit "<soap:Envelope>".

(** The fragment of the fault formatter's example, without prefix and with
    an attribute. *)
Definition fragmentPlain : bytes :=
  lit "<Fault code='x'><faultcode>A</faultcode><faultstring>B</faultstring></Fault>".

Definition request : option bytes :=
  Some (lit "<fooRequest><Foo>hello i am foo</Foo></fooRequest>").

Definition ctx : Context := liveContext 0.
Definition action : bytes := lit "operationFoo".

(** A SOAP 1.2 answer. *)
Definition answer12 : bytes :=
  lit "<soap:Envelope xmlns:soap='http://www.w3.org/2003/05/soap-envelope'><soap:Body><FooResponse><Bar>hi</Bar></FooResponse></soap:Body></soap:Envelope>".

(** A client switched to SOAP 1.2, whose server answers in SOAP 1.2. *)
Definition client12 : Client bytes :=
  @UseSoap12 bytes w3c (Samples.client Samples.textXML (Samples.sent answer12)).


End MoreSamples.

(* ================================================================= *)
(** * Properties *)

(** ** Prefixes and occurrences *)

Lemma HasPrefix_app (p r : bytes) : HasPrefix (p ++ r) p = true.
Proof.
  induction p as [|c p IH]; simpl; [reflexivity|].
  now rewrite Ascii.eqb_refl, IH.
Qed.

Lemma HasPrefix_inv (s p : bytes) :
  HasPrefix s p = true -> exists r, s = p ++ r.
Proof.
  revert s; induction p as [|c p IH]; intros s H.
  - now exists s.
  - destruct s as [|d s]; simpl in H; [discriminate|].
    apply andb_true_iff in H as [Hc Hp].
    apply Ascii.eqb_eq in Hc; subst d.
    destruct (IH _ Hp) as [r ->]. now exists r.
Qed.

Lemma Contains_intro (x w y : bytes) : Contains (x ++ w ++ y) w = true.
Proof.
  induction x as [|c x IH].
  - simpl. destruct (w ++ y) eqn:E; simpl; rewrite <- E, HasPrefix_app; reflexivity.
  - simpl. rewrite IH. apply orb_true_r.
Qed.

Lemma Contains_prefix_false (s w : bytes) :
  Contains s w = false -> HasPrefix s w = false.
Proof.
  destruct s; simpl; intros H; apply orb_false_iff in H; tauto.
Qed.

Lemma Contains_tail_false (c : ascii) (s w : bytes) :
  Contains (c :: s) w = false -> Contains s w = false.
Proof.
  simpl; intros H; apply orb_false_iff in H; tauto.
Qed.

Lemma Contains_drop_false (x s w : bytes) :
  Contains (x ++ s) w = false -> Contains s w = false.
Proof.
  induction x as [|c x IH]; simpl app; intros H; [assumption|].
  apply IH. eapply Contains_tail_false; eassumption.
Qed.

Lemma border_free_spec (w u v : bytes) :
  border_free w = true -> w = u ++ v -> u <> [] -> v <> [] ->
  HasPrefix w v = false.
Proof.
  unfold border_free; intros Hb -> Hu Hv.
  rewrite forallb_forall in Hb.
  specialize (Hb (length u)).
  rewrite skipn_app, skipn_all, Nat.sub_diag in Hb; simpl in Hb.
  apply negb_true_iff, Hb, in_seq.
  rewrite length_app.
  destruct u; [congruence|]. destruct v; [congruence|]. simpl; lia.
Qed.

Lemma HasPrefix_shorter (w t s z : bytes) :
  w ++ t = s ++ z -> length w <= length s -> HasPrefix s w = true.
Proof.
  revert s; induction w as [|c w IH]; intros s H Hlen; [reflexivity|].
  destruct s as [|d s]; [simpl in Hlen; lia|].
  injection H as -> H. simpl. rewrite Ascii.eqb_refl. simpl.
  apply IH; [assumption|simpl in Hlen; lia].
Qed.

(** ** The scan of ReplaceAll *)

Lemma replaceFrom_skip (old new x r : bytes) :
  replaceFrom old new (length x) (x ++ r) = replaceFrom old new 0 r.
Proof.
  induction x as [|c x IH]; simpl; [|exact IH].
  destruct r; reflexivity.
Qed.

Lemma replaceFrom_match (old new r : bytes) :
  old <> [] ->
  replaceFrom old new 0 (old ++ r) = new ++ replaceFrom old new 0 r.
Proof.
  intros Hne. destruct old as [|c o]; [congruence|].
  change ((c :: o) ++ r) with (c :: (o ++ r)).
  cbn [replaceFrom].
  change (c :: o ++ r) with ((c :: o) ++ r).
  rewrite HasPrefix_app.
  replace (length (c :: o) - 1) with (length o) by (simpl; lia).
  now rewrite replaceFrom_skip.
Qed.

Lemma replaceFrom_nomatch (old new : bytes) (c : ascii) (s : bytes) :
  HasPrefix (c :: s) old = false ->
  replaceFrom old new 0 (c :: s) = c :: replaceFrom old new 0 s.
Proof. intros H. cbn [replaceFrom]. now rewrite H. Qed.

(** After the scan has replaced [a] by [b] in a text free of [b], no
    occurrence of [b] starts in the bytes the scan copied. *)
Lemma no_new_prefix (a b : bytes) :
  a <> [] -> border_free b = true ->
  forall p u, u <> [] -> Contains (u ++ p) b = false ->
  HasPrefix (u ++ replaceFrom a b 0 p) b = false.
Proof.
  intros Ha Hb p. induction p as [|c p IH]; intros u Hu Hc.
  - simpl. rewrite app_nil_r in *. now apply Contains_prefix_false.
  - destruct (HasPrefix (c :: p) a) eqn:Hp.
    + apply HasPrefix_inv in Hp as [r Hr]. rewrite Hr, replaceFrom_match by assumption.
      destruct (HasPrefix (u ++ b ++ replaceFrom a b 0 r) b) eqn:Hq; [|reflexivity].
      exfalso. apply HasPrefix_inv in Hq as [t Ht].
      symmetry in Ht. apply app_eq_app in Ht as [v [[Hv1 Hv2]|[Hv1 Hv2]]].
      * (* b = u ++ v *)
        destruct v as [|d v].
        { rewrite app_nil_r in Hv1.
          assert (Contains (u ++ c :: p) b = true)
            by (rewrite <- Hv1; apply (Contains_intro [] b (c :: p))).
          congruence. }
        assert (Hpre : HasPrefix b (d :: v) = true).
        { apply (HasPrefix_shorter (d :: v) t b (replaceFrom a b 0 r));
            [now symmetry|].
          apply (f_equal (@length _)) in Hv1. rewrite length_app in Hv1. lia. }
        rewrite (border_free_spec b u (d :: v) Hb Hv1 Hu) in Hpre;
          [discriminate|congruence].
      * (* u = b ++ v *)
        assert (Contains (u ++ c :: p) b = true)
          by (rewrite Hv1, <- app_assoc; apply (Contains_intro [] b (v ++ c :: p))).
        congruence.
    + rewrite replaceFrom_nomatch by assumption.
      change (u ++ c :: replaceFrom a b 0 p)
        with (u ++ [c] ++ replaceFrom a b 0 p).
      rewrite app_assoc. apply IH.
      * destruct u; discriminate.
      * now rewrite <- app_assoc.
Qed.

Lemma replace_round_trip (a b : bytes) :
  a <> [] -> border_free b = true ->
  forall n p, length p <= n -> Contains p b = false ->
  replaceFrom b a 0 (replaceFrom a b 0 p) = p.
Proof.
  intros Ha Hb n. induction n as [|n IH]; intros p Hn Hc.
  - destruct p; [reflexivity|simpl in Hn; lia].
  - destruct p as [|c p]; [reflexivity|].
    assert (Hbne : b <> []) by (intros ->; destruct p; discriminate).
    destruct (HasPrefix (c :: p) a) eqn:Hp.
    + apply HasPrefix_inv in Hp as [r Hr]. rewrite Hr.
      rewrite !replaceFrom_match by assumption. f_equal.
      apply IH.
      * assert (length (c :: p) = length a + length r)
          by (rewrite Hr; apply length_app).
        destruct a; [congruence|]. simpl in *; lia.
      * rewrite Hr in Hc. eapply Contains_drop_false; eassumption.
    + rewrite replaceFrom_nomatch by assumption.
      rewrite replaceFrom_nomatch.
      * f_equal. apply IH; [simpl in Hn; lia|].
        eapply Contains_tail_false; eassumption.
      * apply (no_new_prefix a b Ha Hb p [c]); [discriminate|assumption].
Qed.

(** ** The namespace translator *)

Lemma replaceSoap_round_trip_at (a b p : bytes) :
  a <> [] -> border_free b = true -> Contains p b = false ->
  ReplaceAll (ReplaceAll p a b) b a = p.
Proof.
  intros Ha Hb Hc.
  assert (Hbne : b <> []) by (intros ->; destruct p; discriminate).
  unfold ReplaceAll.
  destruct a as [|x a]; [congruence|]. destruct b as [|y b]; [congruence|].
  now apply (replace_round_trip (x :: a) (y :: b) Ha Hb (length p) p).
Qed.

(** C5, as the spec states it, fails: a payload that holds the 1.1 literal
    and also the 1.2 literal does not come back from the round trip. *)
Lemma C5_round_trip_counterexample :
  let p := @bNamespaceSoap11 w3c ++ @bNamespaceSoap12 w3c in
  Contains p (@bNamespaceSoap11 w3c) = true /\
  @replaceSoap12to11 w3c (@replaceSoap11to12 w3c p) <> p.
Proof. split; [reflexivity|]. vm_compute. discriminate. Qed.

(** C5, amended: for every byte sequence [p] that does not contain the
    SOAP 1.2 envelope namespace literal, translating [p] from 1.1 to 1.2 and
    back from 1.2 to 1.1 yields [p] unchanged, whether or not [p] contains
    the 1.1 literal.  The 1.1 literal is not empty and no proper suffix of the
    1.2 literal is a prefix of it, as is the case of the standard URIs. *)
Theorem C5_round_trip {K : SoapConsts} (p : bytes) :
  bNamespaceSoap11 <> [] ->
  border_free bNamespaceSoap12 = true ->
  Contains p bNamespaceSoap12 = false ->
  replaceSoap12to11 (replaceSoap11to12 p) = p.
Proof.
  intros Ha Hb Hc. unfold replaceSoap12to11, replaceSoap11to12.
  now apply replaceSoap_round_trip_at.
Qed.

Lemma C5_round_trip_witness :
  @replaceSoap12to11 w3c (@replaceSoap11to12 w3c Samples.answer11) = Samples.answer11.
Proof.
  apply (@C5_round_trip w3c Samples.answer11).
  - discriminate.
  - reflexivity.
  - reflexivity.
Defined.

(** ** The fault formatter *)

(** C4, as the spec states it, fails: at start level 1 the children of the
    fragment's root are at level 1, which is not above the start level, so
    their tags are left out too. *)
Lemma C4_fault_fragment_counterexample :
  @xml_Tokens bytes Samples.lib Samples.fragment = Samples.fragmentTokens /\
  @formatFaultXML bytes Samples.lib Samples.fragment 1
  <> lit "<faultcode>A</faultcode>" ++ LF ++ lit "<faultstring>B</faultstring>".
Proof. split; [reflexivity|]. vm_compute. discriminate. Qed.

(** C4, amended: the fault formatter applied to the fragment
    [<soap:Fault><faultcode>A</faultcode><faultstring>B</faultstring></soap:Fault>]
    with start level 1 emits exactly the two lines [A] and [B], every tag
    elided; the two lines [<faultcode>A</faultcode>] and
    [<faultstring>B</faultstring>], with the namespace prefixes and the outer
    Fault wrapper elided, are what it emits with start level 0. *)
Theorem C4_fault_fragment {Value : Type} {P : Platform Value} :
  xml_Tokens Samples.fragment = Samples.fragmentTokens ->
  formatFaultXML Samples.fragment 1 = lit "A" ++ LF ++ lit "B" /\
  formatFaultXML Samples.fragment 0
  = lit "<faultcode>A</faultcode>" ++ LF ++ lit "<faultstring>B</faultstring>".
Proof.
  intros H. unfold formatFaultXML. rewrite H. split; vm_compute; reflexivity.
Qed.

Lemma C4_fault_fragment_witness :
  @formatFaultXML bytes Samples.lib Samples.fragment 1 = lit "A" ++ LF ++ lit "B" /\
  @formatFaultXML bytes Samples.lib Samples.fragment 0
  = lit "<faultcode>A</faultcode>" ++ LF ++ lit "<faultstring>B</faultstring>".
Proof.
  apply (@C4_fault_fragment bytes Samples.lib). reflexivity.
Defined.

(** ** The configuration surface *)

(** C10: NewClient, UseSoap11 and UseSoap12 each leave the client with
    SoapVersion and ContentType forming a matching pair: the version is 1.1
    exactly when the content type is that of SOAP 1.1, and 1.2 exactly when
    it is that of SOAP 1.2 (the constants of the two versions being
    distinct). *)
Theorem C10_version_content_type_paired
        {Value : Type} {K : SoapConsts} {P : Platform Value} (c : Client Value) :
  SoapVersion11 <> SoapVersion12 ->
  SoapContentType11 <> SoapContentType12 ->
  Configured c -> paired c.
Proof.
  intros Hv Hc Hcfg. unfold paired.
  destruct Hcfg; simpl; intuition congruence.
Qed.

Lemma C10_version_content_type_paired_witness :
  @paired bytes w3c
    (@UseSoap12 bytes w3c
       (@UseSoap11 bytes w3c (@NewClient bytes w3c Samples.lib (lit "http://127.0.0.1:8080/") None))).
Proof.
  apply (@C10_version_content_type_paired bytes w3c Samples.lib).
  - discriminate.
  - discriminate.
  - constructor.
Defined.

(** ** Call *)

Section CallProperties.
Context {Value : Type} {K : SoapConsts} {P : Platform Value}.

(** The multipart loop leaves the world as it is; when it returns, it
    returns a nil response and an error. *)
Lemma soapyPart_inv (parts : list NextPart) (w : World Value) :
  exists s, soapyPart parts w = (s, w) /\
    match s with
    | Return r => fst r = None /\ snd r <> None
    | Next (Some slurp) => isSoapy slurp = true
    | Next None => True
    end.
Proof.
  induction parts as [|x parts IH]; simpl.
  - eexists; split; [reflexivity|exact I].
  - destruct x as [e|p].
    + eexists; split; [reflexivity|]. simpl. split; congruence.
    + unfold ReadAll. destruct (failure p) as [e|].
      * eexists; split; [reflexivity|]. simpl. split; congruence.
      * destruct (isSoapy (delivered p)) eqn:Hs.
        -- eexists; split; [reflexivity|assumption].
        -- exact IH.
Qed.

Lemma soapyPart_passedOver (pre rest : list NextPart) (w : World Value) :
  forallb passedOver pre = true ->
  soapyPart (pre ++ rest) w = soapyPart rest w.
Proof.
  induction pre as [|x pre IH]; intros H; [reflexivity|].
  simpl in H. apply andb_true_iff in H as [Hx Hpre].
  destruct x as [e|p]; simpl in Hx; [discriminate|].
  simpl. unfold ReadAll. destruct (failure p); [discriminate|].
  apply negb_true_iff in Hx. rewrite Hx. now apply IH.
Qed.

Lemma encode_inv (c : Client Value) (request : option Value) (xmlBytes : bytes) :
  encode c request = inl xmlBytes ->
  exists m, Marshal (Marshaller c) (envelopeOf request) = inl m /\
    xmlBytes = if bytes_eqb (SoapVersion c) SoapVersion12
               then replaceSoap11to12 m else m.
Proof.
  unfold encode. destruct (Marshal _ _) as [m|e]; intros H; [|discriminate].
  exists m. split; [reflexivity|congruence].
Qed.

Lemma newRequest_body (c : Client Value) ctx soapAction xmlBytes req :
  newRequest c ctx soapAction xmlBytes = inl req -> ReqBody req = xmlBytes.
Proof.
  unfold newRequest, NewRequestWithContext.
  destruct ctx; [discriminate|]. destruct (url_Parse (url c)); [discriminate|].
  intros H. injection H as <-. destruct (RequestHeaderFn c); reflexivity.
Qed.

Ltac open_call :=
  unfold Call, CallM, respond, readBody, decode;
  unfold run, defer, orReturn, Log, emit, store, bind, ret, exit.

Ltac tidy :=
  cbn beta iota zeta delta [fst snd trace responseValue ReadAll EnvHeader] in *.

Ltac soapy :=
  match goal with
  | |- context [soapyPart ?ps ?w] =>
    let s := fresh "s" in
    let Hs := fresh "Hs" in
    let Hs' := fresh "Hs'" in
    destruct (soapyPart_inv ps w) as [s [Hs Hs']]; rewrite Hs; clear Hs;
    destruct s as [[?|]|[? ?]]
  end.

Ltac branch :=
  match goal with
  | |- context [match ?x with _ => _ end] =>
    lazymatch x with
    | context [match _ with _ => _ end] => fail
    | context [soapyPart] => fail
    | _ => destruct x eqn:?
    end
  end.

Ltac cases := repeat (first [soapy | branch]; tidy).

(** An event among those of a known trace is one of them. *)
Ltac pick H :=
  repeat (destruct H as [H|H]; [try discriminate H|]); try contradiction H.

(** An event that is in a known trace. *)
Ltac found :=
  unfold bodyLogged; simpl; repeat (first [left; reflexivity | right]).

(** C8: for every single-part response whose body is empty, Call returns
    success, the HTTP response and a nil error, and the caller-supplied
    response value is left unchanged: nothing is decoded into it. *)
Theorem C8_empty_body_is_success
        (c : Client Value) (ctx : Context) (soapAction : bytes)
        (request response : option Value)
        (xmlBytes : bytes) (req : Request) (httpResponse : Response)
        (mediaType : bytes) (params : bytes -> bytes) (perr : option error) :
  encode c request = inl xmlBytes ->
  newRequest c ctx soapAction xmlBytes = inl req ->
  HTTPClientDoFn c req = inl httpResponse ->
  mediaTypeOf httpResponse = (mediaType, params, perr) ->
  HasPrefix mediaType (lit "multipart/") = false ->
  ReadAll (RespBody httpResponse) = ([], None) ->
  fst (Call c ctx soapAction request response) = (Some httpResponse, None) /\
  responseValue (snd (Call c ctx soapAction request response)) = response /\
  forall data target,
    ~ In (EvXMLUnmarshal data target)
         (trace (snd (Call c ctx soapAction request response))).
Proof.
  intros He Hn Hd Hm Hp Hr. open_call. tidy.
  rewrite He, Hn, Hd, Hm, Hp. injection Hr as -> ->.
  destruct perr; tidy; (split; [reflexivity|split; [reflexivity|]]);
    intros data target H; simpl in H; pick H.
Qed.

(** C9: Call returns a non-nil HTTP response together with an error
    exactly when reading the single-part response body fails, and the error
    is then the read error; so on every other failure path the HTTP
    response it returns is nil. *)
Theorem C9_response_with_error
        (c : Client Value) (ctx : Context) (soapAction : bytes)
        (request response : option Value) (httpResponse : Response) (err : error) :
  fst (Call c ctx soapAction request response) = (Some httpResponse, Some err) <->
  exists xmlBytes req mediaType params perr,
    encode c request = inl xmlBytes /\
    newRequest c ctx soapAction xmlBytes = inl req /\
    HTTPClientDoFn c req = inl httpResponse /\
    mediaTypeOf httpResponse = (mediaType, params, perr) /\
    HasPrefix mediaType (lit "multipart/") = false /\
    snd (ReadAll (RespBody httpResponse)) = Some err.
Proof.
  split.
  - open_call. cases; intros H; try discriminate.
    all: try (destruct Hs'; simpl in *; congruence).
    all: injection H as -> ->; repeat eexists; eauto.
  - intros (xmlBytes & req & mediaType & params & perr & He & Hn & Hd & Hm & Hp & Hr).
    open_call. tidy. rewrite He, Hn, Hd, Hm, Hp, Hr. destruct perr; reflexivity.
Qed.

(** C3, amended: for every single-part response with a non-empty body, if
    the body contains neither [<SOAP] nor [<soap] anywhere, Call returns a
    NotSoapMessage error whose text contains the raw body. *)
Theorem C3_not_a_soap_message
        (c : Client Value) (ctx : Context) (soapAction : bytes)
        (request response : option Value)
        (xmlBytes : bytes) (req : Request) (httpResponse : Response)
        (mediaType : bytes) (params : bytes -> bytes) (perr : option error)
        (rawBody : bytes) :
  encode c request = inl xmlBytes ->
  newRequest c ctx soapAction xmlBytes = inl req ->
  HTTPClientDoFn c req = inl httpResponse ->
  mediaTypeOf httpResponse = (mediaType, params, perr) ->
  HasPrefix mediaType (lit "multipart/") = false ->
  ReadAll (RespBody httpResponse) = (rawBody, None) ->
  rawBody <> [] ->
  Contains rawBody soapPrefixTagLC = false ->
  Contains rawBody soapPrefixTagUC = false ->
  exists e,
    fst (Call c ctx soapAction request response) = (None, Some e) /\
    Error e = (lit "This is not a SOAP-Message: " ++ LF) ++ rawBody /\
    Contains (Error e) rawBody = true.
Proof.
  intros He Hn Hd Hm Hp Hr Hne Hlc Huc.
  exists (errors_New ((lit "This is not a SOAP-Message: " ++ LF) ++ rawBody)).
  split; [|split; [reflexivity|]].
  - open_call. tidy. rewrite He, Hn, Hd, Hm, Hp. injection Hr as -> ->.
    rewrite Hlc, Huc. destruct rawBody; [congruence|].
    destruct perr; reflexivity.
  - cbn [Error].
    replace ((lit "This is not a SOAP-Message: " ++ LF) ++ rawBody)
      with ((lit "This is not a SOAP-Message: " ++ LF) ++ rawBody ++ [])
      by (now rewrite app_nil_r).
    apply Contains_intro.
Qed.

(** The result of the decoding stage does not depend on the trace so
    far. *)
Lemma decode_result (httpResponse : Response) (response : option Value)
      (rawBody : bytes) (w w' : World Value) :
  fst (run (decode httpResponse response rawBody) w)
  = fst (run (decode httpResponse response rawBody) w').
Proof.
  unfold decode; unfold run, emit, store, bind, ret, exit. tidy.
  cases; reflexivity.
Qed.

(** C6: for every multipart response, Call takes as the SOAP payload the
    bytes of the first part, in stream order, whose content begins with
    [<soap] or [<SOAP]; if the stream of parts ends with no such part, Call
    fails with the no-soapy-part error; if getting or reading a part fails
    before, Call returns at once with that error.  [pre] are the parts
    read and passed over, [rest] the stream from there on. *)
Theorem C6_multipart_payload
        (c : Client Value) (ctx : Context) (soapAction : bytes)
        (request response : option Value)
        (xmlBytes : bytes) (req : Request) (httpResponse : Response)
        (mediaType : bytes) (params : bytes -> bytes) (perr : option error)
        (pre rest : list NextPart) :
  encode c request = inl xmlBytes ->
  newRequest c ctx soapAction xmlBytes = inl req ->
  HTTPClientDoFn c req = inl httpResponse ->
  mediaTypeOf httpResponse = (mediaType, params, perr) ->
  HasPrefix mediaType (lit "multipart/") = true ->
  multipart_NewReader (RespBody httpResponse) (params (lit "boundary")) = pre ++ rest ->
  forallb passedOver pre = true ->
  match rest with
  | [] =>
    fst (Call c ctx soapAction request response)
    = (None, Some (errors_New (lit "multipart message does contain a soapy part")))
  | NextPartErr e :: _ =>
    fst (Call c ctx soapAction request response) = (None, Some e)
  | NextPartOk p :: _ =>
    match failure p with
    | Some e => fst (Call c ctx soapAction request response) = (None, Some e)
    | None =>
      (HasPrefix (delivered p) soapPrefixTagLC = true \/
       HasPrefix (delivered p) soapPrefixTagUC = true) ->
      In (bodyLogged (delivered p))
         (trace (snd (Call c ctx soapAction request response))) /\
      forall w,
        fst (Call c ctx soapAction request response)
        = fst (run (decode httpResponse response (delivered p)) w)
    end
  end.
Proof.
  intros He Hn Hd Hm Hp Hparts Hpre.
  destruct rest as [|[e|p] rest]; [| |destruct (failure p) as [e|] eqn:Hf].
  - open_call. tidy. rewrite He, Hn, Hd, Hm, Hp, Hparts.
    destruct perr; tidy; rewrite (soapyPart_passedOver pre [] _ Hpre); reflexivity.
  - open_call. tidy. rewrite He, Hn, Hd, Hm, Hp, Hparts.
    destruct perr; tidy;
      rewrite (soapyPart_passedOver pre (NextPartErr e :: rest) _ Hpre); reflexivity.
  - open_call. tidy. rewrite He, Hn, Hd, Hm, Hp, Hparts.
    destruct perr; tidy;
      rewrite (soapyPart_passedOver pre (NextPartOk p :: rest) _ Hpre);
      simpl; rewrite Hf; reflexivity.
  - intros Hsoapy.
    assert (Hs : isSoapy (delivered p) = true)
      by (unfold isSoapy; destruct Hsoapy as [-> | ->];
          [reflexivity|apply orb_true_r]).
    split.
    + open_call. tidy. rewrite He, Hn, Hd, Hm, Hp, Hparts.
      destruct perr; tidy;
        rewrite (soapyPart_passedOver pre (NextPartOk p :: rest) _ Hpre);
        simpl soapyPart; rewrite Hf, Hs; unfold ret; tidy; cases; found.
    + intros w.
      unfold Call, CallM, respond, readBody.
      unfold run at 1; unfold defer, orReturn, Log, emit, bind, ret, exit.
      tidy. rewrite He, Hn, Hd, Hm, Hp, Hparts.
      destruct perr; tidy;
        rewrite (soapyPart_passedOver pre (NextPartOk p :: rest) _ Hpre);
        simpl soapyPart; rewrite Hf, Hs; unfold ret; tidy;
        match goal with
        | |- context [decode ?h ?r ?b ?w0] =>
          rewrite (decode_result h r b w w0); unfold run;
          destruct (decode h r b w0) as [[?|?] ?]; reflexivity
        end.
Qed.

Lemma bytes_eqb_eq (x y : bytes) : bytes_eqb x y = true <-> x = y.
Proof.
  revert y; induction x as [|a x IH]; intros [|d y]; simpl.
  - split; reflexivity.
  - split; discriminate.
  - split; discriminate.
  - rewrite andb_true_iff, Ascii.eqb_eq, IH.
    split; [intros [-> ->]; reflexivity|intros H; injection H; auto].
Qed.

(** Every event of a known trace, one by one. *)
Ltac each H :=
  simpl in H;
  repeat match type of H with
         | _ \/ _ => destruct H as [H|H]
         end;
  try discriminate H; try contradiction H.

(** Whatever request a call has sent carries the marshalled envelope,
    translated exactly under version 1.2; whatever document it has decoded
    is the translation of the body that was read. *)
Lemma sent_and_decoded_inv
      (c : Client Value) (ctx : Context) (soapAction : bytes)
      (request response : option Value) :
  (forall req,
      In (EvDo req) (trace (snd (Call c ctx soapAction request response))) ->
      exists m,
        Marshal (Marshaller c) (envelopeOf request) = inl m /\
        (SoapVersion c = SoapVersion12 -> ReqBody req = replaceSoap11to12 m) /\
        (SoapVersion c <> SoapVersion12 -> ReqBody req = m)) /\
  (forall data target,
      In (EvXMLUnmarshal data target)
         (trace (snd (Call c ctx soapAction request response))) ->
      exists rawBody,
        In (bodyLogged rawBody) (trace (snd (Call c ctx soapAction request response))) /\
        data = replaceSoap12to11 rawBody).
Proof.
  split.
  - intros req. open_call. cases; intros H; each H.
    all: injection H as <-.
    all: match goal with
         | He : encode _ _ = inl ?b, Hn : newRequest _ _ _ ?b = inl _ |- _ =>
           apply encode_inv in He as [m [Hm ->]];
           apply newRequest_body in Hn; exists m; rewrite Hn;
           split; [assumption|];
           destruct (bytes_eqb (SoapVersion c) SoapVersion12) eqn:Hv;
           [apply bytes_eqb_eq in Hv; split; [reflexivity|congruence]
           |split; [intros Hv'; apply bytes_eqb_eq in Hv'; congruence|reflexivity]]
         end.
  - intros data target. open_call. cases; intros H; each H.
    all: injection H as <- <-; eexists; split; [found|reflexivity].
Qed.

(** C1, amended: for every call whose decoded response Body carries a
    non-empty Fault, Call returns a SoapFault error whose message is
    [SOAP FAULT:] and, on the next line, the formatted rendering of the
    response bytes after the 1.2-to-1.1 namespace translation has been
    applied to them, the bytes that were handed to the decoder. *)
Theorem C1_fault_renders_translated_bytes
        (c : Client Value) (ctx : Context) (soapAction : bytes)
        (request response : option Value)
        (data : bytes) (target decoded : Envelope Value) :
  In (EvXMLUnmarshal data target)
     (trace (snd (Call c ctx soapAction request response))) ->
  xml_Unmarshal data target = (decoded, None) ->
  BodyFault (EnvBody decoded) <> None ->
  fst (Call c ctx soapAction request response)
  = (None, Some (errors_New ((lit "SOAP FAULT:" ++ LF) ++ formatFaultXML data 1))) /\
  exists rawBody,
    In (bodyLogged rawBody) (trace (snd (Call c ctx soapAction request response))) /\
    data = replaceSoap12to11 rawBody.
Proof.
  intros H Hu Hf. revert H. open_call. cases; intros H; each H.
  all: injection H as <- <-.
  all: try match goal with
       | Hx : xml_Unmarshal ?d ?t = _, Hy : xml_Unmarshal ?d ?t = _ |- _ =>
         rewrite Hx in Hy; inversion Hy; subst
       end.
  all: try congruence.
  all: split; [reflexivity|eexists; split; [found|reflexivity]].
Qed.

(* ----------------------------------------------------------------- *)
(** *** Further properties of Call *)

Lemma HasPrefix_Contains (s w : bytes) : HasPrefix s w = true -> Contains s w = true.
Proof. intros H. destruct s; simpl; rewrite H; reflexivity. Qed.

Lemma isSoapy_Contains (s : bytes) :
  isSoapy s = true ->
  s <> [] /\ (Contains s soapPrefixTagLC = true \/ Contains s soapPrefixTagUC = true).
Proof.
  unfold isSoapy. intros H. apply orb_true_iff in H. split.
  - intros ->. destruct H; discriminate.
  - destruct H; [left|right]; now apply HasPrefix_Contains.
Qed.

(** As [cases], with what a trace shows computed along the way. *)
Ltac cases_shown :=
  repeat (first [soapy | branch]; tidy; cbn [decoded requests closes] in *).

(** X7: when marshalling the request fails, or the HTTP request cannot be
    built (a nil context, a URL that does not parse), Call returns a nil
    response and that very error; nothing has been logged or sent, and the
    caller's response value is untouched. *)
Theorem Call_fails_before_sending
        (c : Client Value) (ctx : Context) (soapAction : bytes)
        (request response : option Value) (err : error) :
  encode c request = inr err \/
  (exists xmlBytes, encode c request = inl xmlBytes /\
                    newRequest c ctx soapAction xmlBytes = inr err) ->
  Call c ctx soapAction request response
  = ((None, Some err), {| responseValue := response; trace := [] |}).
Proof.
  intros [He | [xmlBytes [He Hn]]]; open_call; tidy; rewrite He; tidy;
    [|rewrite Hn]; reflexivity.
Qed.

(** X8: when the transport fails, Call returns a nil response and the
    transport's error unchanged; the one request was sent, no response body
    is closed, nothing is decoded and the caller's response value is
    untouched. *)
Theorem Call_transport_error
        (c : Client Value) (ctx : Context) (soapAction : bytes)
        (request response : option Value)
        (xmlBytes : bytes) (req : Request) (err : error) :
  encode c request = inl xmlBytes ->
  newRequest c ctx soapAction xmlBytes = inl req ->
  HTTPClientDoFn c req = inr err ->
  fst (Call c ctx soapAction request response) = (None, Some err) /\
  responseValue (snd (Call c ctx soapAction request response)) = response /\
  requests (trace (snd (Call c ctx soapAction request response))) = [req] /\
  closes (trace (snd (Call c ctx soapAction request response))) = 0 /\
  decoded (trace (snd (Call c ctx soapAction request response))) = [].
Proof.
  intros He Hn Hd. open_call. tidy. rewrite He, Hn, Hd. repeat split.
Qed.

(** X9: a call hands at most one request to the transport and decodes at
    most one document: there is no retry. *)
Theorem Call_sends_at_most_once
        (c : Client Value) (ctx : Context) (soapAction : bytes)
        (request response : option Value) :
  length (requests (trace (snd (Call c ctx soapAction request response)))) <= 1 /\
  length (decoded (trace (snd (Call c ctx soapAction request response)))) <= 1.
Proof.
  open_call. cases; simpl; lia.
Qed.

(** X10: once the transport has answered, the body of the response is
    closed exactly once, as the last thing the call does, whichever way the
    call ends. *)
Theorem Call_closes_body_last
        (c : Client Value) (ctx : Context) (soapAction : bytes)
        (request response : option Value) (req : Request) (httpResponse : Response) :
  In (EvDo req) (trace (snd (Call c ctx soapAction request response))) ->
  HTTPClientDoFn c req = inl httpResponse ->
  exists tr,
    trace (snd (Call c ctx soapAction request response)) = EvBodyClose :: tr /\
    closes tr = 0.
Proof.
  intros H Hd. revert H. open_call. cases; intros H; each H.
  all: injection H as <-; try congruence.
  all: eexists; split; reflexivity.
Qed.

(** X11: when the decoder rejects the response, Call returns a nil
    response and an error whose text is the decoder's, after
    [soap/client.go Call(): COULD NOT UNMARSHAL: ] and before a line feed,
    whether or not the decoder has seen a Fault. *)
Theorem Call_unmarshal_error
        (c : Client Value) (ctx : Context) (soapAction : bytes)
        (request response : option Value)
        (data : bytes) (target document : Envelope Value) (err : error) :
  In (EvXMLUnmarshal data target)
     (trace (snd (Call c ctx soapAction request response))) ->
  xml_Unmarshal data target = (document, Some err) ->
  fst (Call c ctx soapAction request response)
  = (None, Some (errors_New
       ((lit "soap/client.go Call(): COULD NOT UNMARSHAL: " ++ Error err) ++ LF))).
Proof.
  intros H Hu. revert H. open_call. cases; intros H; each H.
  all: injection H as <- <-.
  all: try match goal with
       | Hx : xml_Unmarshal ?d ?t = _, Hy : xml_Unmarshal ?d ?t = _ |- _ =>
         rewrite Hx in Hy; inversion Hy; subst
       end.
  all: try congruence.
  all: reflexivity.
Qed.

(** X12: when the decoder accepts the response and finds no Fault, Call
    returns the transport's response and a nil error. *)
Theorem Call_success
        (c : Client Value) (ctx : Context) (soapAction : bytes)
        (request response : option Value)
        (req : Request) (httpResponse : Response)
        (data : bytes) (target document : Envelope Value) :
  In (EvDo req) (trace (snd (Call c ctx soapAction request response))) ->
  HTTPClientDoFn c req = inl httpResponse ->
  In (EvXMLUnmarshal data target)
     (trace (snd (Call c ctx soapAction request response))) ->
  xml_Unmarshal data target = (document, None) ->
  BodyFault (EnvBody document) = None ->
  fst (Call c ctx soapAction request response) = (Some httpResponse, None).
Proof.
  intros Hreq Hd H Hu Hf. revert Hreq H. open_call. cases; intros Hreq H; each H.
  all: injection H as <- <-.
  all: each Hreq; injection Hreq as <-.
  all: try match goal with
       | Hx : xml_Unmarshal ?d ?t = _, Hy : xml_Unmarshal ?d ?t = _ |- _ =>
         rewrite Hx in Hy; inversion Hy; subst
       end.
  all: congruence.
Qed.

(** X13: the decoder is never handed a nil target: its envelope holds the
    caller's response value, or the placeholder when the caller passed nil;
    it has no Header and no Fault yet. *)
Theorem Call_decoder_target
        (c : Client Value) (ctx : Context) (soapAction : bytes)
        (request response : option Value)
        (data : bytes) (target : Envelope Value) :
  In (EvXMLUnmarshal data target)
     (trace (snd (Call c ctx soapAction request response))) ->
  target = envelopeOf (match response with
                       | Some v => Some v
                       | None => Some dummyContent
                       end).
Proof.
  open_call. cases; intros H; each H.
  all: injection H as <- <-; reflexivity.
Qed.

(** X14: the caller's response value changes only through the decoder: it
    is untouched by a call that decodes nothing, and otherwise holds what
    the decoder left in the target's content, also when the call then fails
    with the decoder's error or with a SOAP fault; a nil response stays
    nil. *)
Theorem Call_response_value
        (c : Client Value) (ctx : Context) (soapAction : bytes)
        (request response : option Value) :
  responseValue (snd (Call c ctx soapAction request response))
  = match decoded (trace (snd (Call c ctx soapAction request response))) with
    | [] => response
    | (data, target) :: _ =>
      match response, Content (EnvBody (fst (xml_Unmarshal data target))) with
      | Some _, Some v => Some v
      | _, _ => response
      end
    end.
Proof.
  open_call. cases_shown; simpl.
  all: try reflexivity.
  all: repeat match goal with
       | Hx : xml_Unmarshal ?d ?t = _, Hy : context [fst (xml_Unmarshal ?d ?t)] |- _ =>
         rewrite Hx in Hy
       | Hx : xml_Unmarshal ?d ?t = _ |- context [fst (xml_Unmarshal ?d ?t)] =>
         rewrite Hx
       end.
  all: simpl in *; congruence.
Qed.

(** X15: every document handed to the decoder is the 1.2-to-1.1
    translation of a non-empty body that contains [<soap] or [<SOAP]: an
    empty body or a body without a SOAP tag never reaches the decoder, on the
    single-part path and on the multipart path alike. *)
Theorem Call_decodes_soap_only
        (c : Client Value) (ctx : Context) (soapAction : bytes)
        (request response : option Value)
        (data : bytes) (target : Envelope Value) :
  In (EvXMLUnmarshal data target)
     (trace (snd (Call c ctx soapAction request response))) ->
  exists rawBody,
    data = replaceSoap12to11 rawBody /\
    rawBody <> [] /\
    (Contains rawBody soapPrefixTagLC = true \/
     Contains rawBody soapPrefixTagUC = true).
Proof.
  open_call. cases; intros H; each H.
  all: injection H as <- <-; eexists; split; [reflexivity|].
  all: try (apply isSoapy_Contains; assumption).
  all: split;
    [match goal with
     | Hl : (length ?x =? 0) = false |- ?x <> [] =>
       intros Hz; rewrite Hz in Hl; discriminate
     end
    |match goal with
     | Hc : negb (_ || _) = false |- _ =>
       apply negb_false_iff, orb_true_iff in Hc; exact Hc
     end].
Qed.

(** X16: Call never returns a nil response together with a nil error. *)
Theorem Call_returns_response_or_error
        (c : Client Value) (ctx : Context) (soapAction : bytes)
        (request response : option Value) :
  (exists httpResponse,
      fst (fst (Call c ctx soapAction request response)) = Some httpResponse) \/
  (exists err,
      snd (fst (Call c ctx soapAction request response)) = Some err).
Proof.
  open_call. cases.
  all: try (left; eexists; reflexivity).
  all: try (right; eexists; reflexivity).
  all: destruct Hs' as [_ Hs']; simpl in Hs'; right;
    match goal with
    | |- exists _, ?o = _ => destruct o; [eexists; reflexivity|congruence]
    end.
Qed.


(** X18: a single-part body that holds [<soap] or [<SOAP] anywhere, after
    whatever text, is logged and handed to the decoder, translated from 1.2
    to 1.1. *)
Theorem Call_single_part_decoded
        (c : Client Value) (ctx : Context) (soapAction : bytes)
        (request response : option Value)
        (xmlBytes : bytes) (req : Request) (httpResponse : Response)
        (mediaType : bytes) (params : bytes -> bytes) (perr : option error)
        (rawBody : bytes) :
  encode c request = inl xmlBytes ->
  newRequest c ctx soapAction xmlBytes = inl req ->
  HTTPClientDoFn c req = inl httpResponse ->
  mediaTypeOf httpResponse = (mediaType, params, perr) ->
  HasPrefix mediaType (lit "multipart/") = false ->
  ReadAll (RespBody httpResponse) = (rawBody, None) ->
  Contains rawBody soapPrefixTagLC = true \/ Contains rawBody soapPrefixTagUC = true ->
  decoded (trace (snd (Call c ctx soapAction request response)))
  = [(replaceSoap12to11 rawBody,
      envelopeOf (match response with
                  | Some v => Some v
                  | None => Some dummyContent
                  end))] /\
  In (bodyLogged rawBody) (trace (snd (Call c ctx soapAction request response))).
Proof.
  intros He Hn Hd Hm Hp Hr Hc.
  assert (Hne : (length rawBody =? 0) = false).
  { destruct rawBody; [destruct Hc; discriminate|reflexivity]. }
  assert (Hor : negb (Contains rawBody soapPrefixTagLC || Contains rawBody soapPrefixTagUC)
                = false).
  { apply negb_false_iff, orb_true_iff. exact Hc. }
  open_call. tidy. rewrite He, Hn, Hd, Hm, Hp. injection Hr as -> ->.
  rewrite Hne, Hor.
  destruct perr; tidy; cases; (split; [reflexivity|found]).
Qed.

(* ----------------------------------------------------------------- *)
(** *** The request that is sent *)

(** The request of the trace is the one the start of [Call] has built. *)
Lemma Call_sent_inv
      (c : Client Value) (ctx : Context) (soapAction : bytes)
      (request response : option Value) (req : Request) :
  In (EvDo req) (trace (snd (Call c ctx soapAction request response))) ->
  exists xmlBytes,
    encode c request = inl xmlBytes /\
    newRequest c ctx soapAction xmlBytes = inl req.
Proof.
  open_call. cases; intros H; each H.
  all: injection H as <-; eexists; split; first [eassumption | reflexivity].
Qed.

Lemma newRequest_inv (c : Client Value) ctx soapAction xmlBytes req :
  newRequest c ctx soapAction xmlBytes = inl req ->
  exists h,
    req = {| ReqCtx := ctx; Method := lit "POST"; ReqURL := url c;
             ReqBody := xmlBytes;
             ReqHeader := match RequestHeaderFn c with
                          | Some f => f h
                          | None => h
                          end;
             Close := true |} /\
    h = (let h := match auth c with
                  | Some a => Header_Set [] (CanonicalMIMEHeaderKey (lit "Authorization"))
                                (lit "Basic " ++ basicAuth (Login a) (Password a))
                  | None => []
                  end in
         let h := Header_Add h (CanonicalMIMEHeaderKey (lit "Content-Type")) (ContentType c) in
         let h := Header_Set h (CanonicalMIMEHeaderKey (lit "User-Agent"))
                    (if length (UserAgent c) =? 0 then userAgent else UserAgent c) in
         if negb (length soapAction =? 0)
         then Header_Add h (CanonicalMIMEHeaderKey (lit "SOAPAction")) soapAction
         else h).
Proof.
  unfold newRequest, NewRequestWithContext.
  destruct ctx; [discriminate|]. destruct (url_Parse (url c)); [discriminate|].
  intros H. injection H as <-. eexists. split; [|reflexivity].
  cbn [ReqCtx Method ReqURL ReqBody ReqHeader Close].
  destruct (RequestHeaderFn c); reflexivity.
Qed.

(** X19: without a header hook, the request that is sent is a POST to the
    client's URL, under the caller's context, with the connection to be
    closed; its Content-Type is the client's, its User-Agent the client's or,
    when that is empty, [go-soap-1.1]; its SOAPAction is the action given,
    and the header is absent when the action is empty. *)
Theorem Call_request_shape
        (c : Client Value) (ctx : Context) (soapAction : bytes)
        (request response : option Value) (req : Request) :
  RequestHeaderFn c = None ->
  In (EvDo req) (trace (snd (Call c ctx soapAction request response))) ->
  Method req = lit "POST" /\ ReqURL req = url c /\ ReqCtx req = ctx /\
  Close req = true /\
  Header_Get (ReqHeader req) (CanonicalMIMEHeaderKey (lit "Content-Type"))
  = ContentType c /\
  Header_Get (ReqHeader req) (CanonicalMIMEHeaderKey (lit "User-Agent"))
  = (if length (UserAgent c) =? 0 then userAgent else UserAgent c) /\
  Header_Get (ReqHeader req) (CanonicalMIMEHeaderKey (lit "SOAPAction")) = soapAction /\
  (soapAction = [] ->
   ~ In (CanonicalMIMEHeaderKey (lit "SOAPAction")) (map fst (ReqHeader req))).
Proof.
  intros Hhook H.
  apply Call_sent_inv in H as [xmlBytes [_ Hn]].
  apply newRequest_inv in Hn as [h [-> ->]]. rewrite Hhook.
  cbn [ReqCtx Method ReqURL ReqBody ReqHeader Close].
  repeat (split; [reflexivity|]).
  destruct (auth c) as [a|]; destruct (length (UserAgent c) =? 0);
    destruct soapAction as [|x soapAction];
    (repeat split; [vm_compute; reflexivity ..|]);
    intros Hs; try discriminate Hs; vm_compute; intuition discriminate.
Qed.

(** X20: without a header hook, the request carries the Authorization
    header [Basic ] followed by the encoded credentials exactly when the
    client has credentials. *)
Theorem Call_request_authorization
        (c : Client Value) (ctx : Context) (soapAction : bytes)
        (request response : option Value) (req : Request) :
  RequestHeaderFn c = None ->
  In (EvDo req) (trace (snd (Call c ctx soapAction request response))) ->
  match auth c with
  | Some a =>
    Header_Get (ReqHeader req) (CanonicalMIMEHeaderKey (lit "Authorization"))
    = lit "Basic " ++ basicAuth (Login a) (Password a)
  | None =>
    ~ In (CanonicalMIMEHeaderKey (lit "Authorization")) (map fst (ReqHeader req))
  end.
Proof.
  intros Hhook H.
  apply Call_sent_inv in H as [xmlBytes [_ Hn]].
  apply newRequest_inv in Hn as [h [-> ->]]. rewrite Hhook.
  cbn [ReqCtx Method ReqURL ReqBody ReqHeader Close].
  destruct (auth c) as [a|]; destruct (length (UserAgent c) =? 0);
    destruct soapAction as [|x soapAction];
    vm_compute; try reflexivity; intuition discriminate.
Qed.

(** X21: the header hook is applied last: the header that is sent is what
    the hook makes of the header the same client sends without a hook, so the
    hook can override every header; the rest of the request is the same. *)
Theorem Call_request_hook_last
        (c : Client Value) (ctx : Context) (soapAction : bytes)
        (request response : option Value) (req : Request) (f : Header -> Header) :
  RequestHeaderFn c = Some f ->
  In (EvDo req) (trace (snd (Call c ctx soapAction request response))) ->
  exists req0,
    newRequest (withHook c None) ctx soapAction (ReqBody req) = inl req0 /\
    req = withHeader req0 (f (ReqHeader req0)).
Proof.
  intros Hhook H.
  apply Call_sent_inv in H as [xmlBytes [_ Hn]].
  unfold newRequest, NewRequestWithContext in *.
  destruct ctx; [discriminate|]. cbn [url withHook].
  destruct (url_Parse (url c)); [discriminate|].
  rewrite Hhook in Hn. injection Hn as <-.
  eexists. split; reflexivity.
Qed.

(** X22: a client switched to SOAP 1.2, with no header hook, sends the
    SOAP 1.2 content type and the marshalled envelope translated to the 1.2
    namespace. *)
Theorem UseSoap12_request
        (c : Client Value) (ctx : Context) (soapAction : bytes)
        (request response : option Value) (req : Request) :
  RequestHeaderFn c = None ->
  In (EvDo req) (trace (snd (Call (UseSoap12 c) ctx soapAction request response))) ->
  Header_Get (ReqHeader req) (CanonicalMIMEHeaderKey (lit "Content-Type"))
  = SoapContentType12 /\
  exists m,
    Marshal (Marshaller c) (envelopeOf request) = inl m /\
    ReqBody req = replaceSoap11to12 m.
Proof.
  intros Hhook H.
  apply Call_sent_inv in H as [xmlBytes [He Hn]].
  apply encode_inv in He as [m [Hm Hx]]. cbn [UseSoap12 SoapVersion Marshaller] in *.
  replace (bytes_eqb SoapVersion12 SoapVersion12) with true in Hx
    by (symmetry; now apply bytes_eqb_eq).
  pose proof (newRequest_body _ _ _ _ _ Hn) as Hb.
  apply newRequest_inv in Hn as [h [Hreq ->]].
  cbn [UseSoap12 RequestHeaderFn auth ContentType UserAgent url] in Hreq.
  rewrite Hhook in Hreq. split.
  - rewrite Hreq. cbn [ReqHeader].
    destruct (auth c) as [a|]; destruct (length (UserAgent c) =? 0);
      destruct soapAction as [|x soapAction]; vm_compute; reflexivity.
  - exists m. split; [assumption|congruence].
Qed.

(** X23: a client switched to SOAP 1.1, with no header hook, sends the
    SOAP 1.1 content type and the marshalled envelope as it is (the two
    version selectors being distinct). *)
Theorem UseSoap11_request
        (c : Client Value) (ctx : Context) (soapAction : bytes)
        (request response : option Value) (req : Request) :
  SoapVersion11 <> SoapVersion12 ->
  RequestHeaderFn c = None ->
  In (EvDo req) (trace (snd (Call (UseSoap11 c) ctx soapAction request response))) ->
  Header_Get (ReqHeader req) (CanonicalMIMEHeaderKey (lit "Content-Type"))
  = SoapContentType11 /\
  Marshal (Marshaller c) (envelopeOf request) = inl (ReqBody req).
Proof.
  intros Hv Hhook H.
  apply Call_sent_inv in H as [xmlBytes [He Hn]].
  apply encode_inv in He as [m [Hm Hx]]. cbn [UseSoap11 SoapVersion Marshaller] in *.
  destruct (bytes_eqb SoapVersion11 SoapVersion12) eqn:Hb'.
  { apply bytes_eqb_eq in Hb'. congruence. }
  pose proof (newRequest_body _ _ _ _ _ Hn) as Hb.
  apply newRequest_inv in Hn as [h [Hreq ->]].
  cbn [UseSoap11 RequestHeaderFn auth ContentType UserAgent url] in Hreq.
  rewrite Hhook in Hreq. split.
  - rewrite Hreq. cbn [ReqHeader].
    destruct (auth c) as [a|]; destruct (length (UserAgent c) =? 0);
      destruct soapAction as [|x soapAction]; vm_compute; reflexivity.
  - congruence.
Qed.

(** X24: a client fresh from NewClient sends a POST to its URL with the
    SOAP 1.1 content type and the user agent [go-soap-1.1]; the body is the
    envelope as MarshalIndent gives it with no prefix and a tab as indent,
    untranslated (the two version selectors being distinct). *)
Theorem NewClient_request
        (url0 : bytes) (credentials : option BasicAuth)
        (ctx : Context) (soapAction : bytes)
        (request response : option Value) (req : Request) :
  SoapVersion11 <> SoapVersion12 ->
  In (EvDo req)
     (trace (snd (Call (NewClient url0 credentials) ctx soapAction request response))) ->
  Method req = lit "POST" /\ ReqURL req = url0 /\
  Header_Get (ReqHeader req) (CanonicalMIMEHeaderKey (lit "Content-Type"))
  = SoapContentType11 /\
  Header_Get (ReqHeader req) (CanonicalMIMEHeaderKey (lit "User-Agent")) = userAgent /\
  xml_MarshalIndent (envelopeOf request) [] TAB = inl (ReqBody req).
Proof.
  intros Hv H.
  apply Call_sent_inv in H as [xmlBytes [He Hn]].
  apply encode_inv in He as [m [Hm Hx]].
  cbn [NewClient SoapVersion Marshaller defaultMarshaller Marshal] in *.
  destruct (bytes_eqb SoapVersion11 SoapVersion12) eqn:Hb'.
  { apply bytes_eqb_eq in Hb'. congruence. }
  pose proof (newRequest_body _ _ _ _ _ Hn) as Hb.
  apply newRequest_inv in Hn as [h [Hreq ->]].
  cbn [NewClient RequestHeaderFn auth ContentType UserAgent url] in Hreq.
  rewrite Hreq. cbn [ReqHeader Method ReqURL ReqBody].
  repeat (split; [reflexivity|]).
  split; [|split; [|congruence]];
    destruct credentials as [a|]; destruct soapAction as [|x soapAction];
    vm_compute; reflexivity.
Qed.

(* ----------------------------------------------------------------- *)
(** *** What a call does once the transport has answered *)

Lemma decoded_app (tr1 tr2 : list (Event Value)) :
  decoded (tr1 ++ tr2) = decoded tr1 ++ decoded tr2.
Proof.
  induction tr1 as [|e tr1 IH]; [reflexivity|].
  destruct e; simpl; rewrite IH; reflexivity.
Qed.

Lemma requests_app (tr1 tr2 : list (Event Value)) :
  requests (tr1 ++ tr2) = requests tr1 ++ requests tr2.
Proof.
  induction tr1 as [|e tr1 IH]; [reflexivity|].
  destruct e; simpl; rewrite IH; reflexivity.
Qed.

(** What the multipart loop gives does not depend on the world. *)
Lemma soapyPart_pure (parts : list NextPart) :
  exists s, forall w : World Value, soapyPart parts w = (s, w).
Proof.
  induction parts as [|x parts [s IH]]; simpl.
  - eexists; intros w; reflexivity.
  - destruct x as [e|p].
    + eexists; intros w; reflexivity.
    + unfold ReadAll. destruct (failure p) as [e|].
      * eexists; intros w; reflexivity.
      * destruct (isSoapy (delivered p)).
        -- eexists; intros w; reflexivity.
        -- exists s. exact IH.
Qed.

(** Reading the body gives the same outcome in every world, and adds to
    the trace only lines of the log. *)
Lemma readBody_inv (httpResponse : Response) (mediaType : bytes)
      (params : bytes -> bytes) :
  exists s evs,
    decoded evs = [] /\ requests evs = [] /\
    forall w : World Value,
      readBody httpResponse mediaType params w
      = (s, {| responseValue := responseValue w; trace := evs ++ trace w |}).
Proof.
  unfold readBody; unfold Log, emit, bind, ret, exit.
  destruct (HasPrefix mediaType (lit "multipart/")).
  - destruct (soapyPart_pure
                (multipart_NewReader (RespBody httpResponse) (params (lit "boundary"))))
      as [s Hs].
    destruct s as [[rawBody|]|r]; eexists; exists [];
      (split; [reflexivity|split; [reflexivity|]]);
      intros w; rewrite Hs; destruct w; reflexivity.
  - unfold ReadAll. destruct (failure (RespBody httpResponse)) as [e|].
    + eexists; exists []; (split; [reflexivity|split; [reflexivity|]]).
      intros w; destruct w; reflexivity.
    + destruct (length (delivered (RespBody httpResponse)) =? 0);
        [|destruct (negb (Contains (delivered (RespBody httpResponse)) soapPrefixTagLC
                          || Contains (delivered (RespBody httpResponse)) soapPrefixTagUC))].
      all: eexists; eexists (_ :: []); (split; [|split]);
        [ | |intros w; reflexivity]; reflexivity.
Qed.

Lemma bodyRead_spec (httpResponse : Response) (mediaType : bytes)
      (params : bytes -> bytes) (w : World Value) :
  bodyRead httpResponse mediaType params
  = match fst (readBody httpResponse mediaType params w) with
    | Next rawBody => Some rawBody
    | Return _ => None
    end.
Proof.
  unfold bodyRead.
  destruct (readBody_inv httpResponse mediaType params) as (s & evs & _ & _ & H).
  now rewrite !H.
Qed.

(** The decoding stage hands one document to the decoder: the translation
    of the body, with the caller's value or the placeholder as target. *)
Lemma decode_trace (httpResponse : Response) (response : option Value)
      (rawBody : bytes) (w : World Value) :
  trace (snd (decode httpResponse response rawBody w))
  = EvXMLUnmarshal (replaceSoap12to11 rawBody)
      (envelopeOf (match response with
                   | Some v => Some v
                   | None => Some dummyContent
                   end))
    :: trace w.
Proof.
  unfold decode; unfold emit, store, bind, ret, exit. tidy.
  cases; reflexivity.
Qed.

(** Once the transport has answered, the call is what reading the body and
    decoding it give, whether or not the media type has parsed. *)
Lemma Call_outcome
      (c : Client Value) (ctx : Context) (soapAction : bytes)
      (request response : option Value)
      (xmlBytes : bytes) (req : Request) (httpResponse : Response)
      (mediaType : bytes) (params : bytes -> bytes) (perr : option error)
      (w0 w1 : World Value) :
  encode c request = inl xmlBytes ->
  newRequest c ctx soapAction xmlBytes = inl req ->
  HTTPClientDoFn c req = inl httpResponse ->
  mediaTypeOf httpResponse = (mediaType, params, perr) ->
  requests (trace (snd (Call c ctx soapAction request response))) = [req] /\
  match fst (readBody httpResponse mediaType params w0) with
  | Next rawBody =>
    fst (Call c ctx soapAction request response)
    = fst (run (decode httpResponse response rawBody) w1) /\
    decoded (trace (snd (Call c ctx soapAction request response)))
    = [(replaceSoap12to11 rawBody,
        envelopeOf (match response with
                    | Some v => Some v
                    | None => Some dummyContent
                    end))]
  | Return r =>
    fst (Call c ctx soapAction request response) = r /\
    decoded (trace (snd (Call c ctx soapAction request response))) = []
  end.
Proof.
  intros He Hn Hd Hm.
  destruct (readBody_inv httpResponse mediaType params) as (s & evs & Hde & Hre & Hrb).
  rewrite (Hrb w0). cbn [fst].
  unfold Call, CallM, respond.
  unfold run, defer, orReturn, Log, emit, bind, ret, exit.
  tidy. rewrite He, Hn, Hd, Hm.
  destruct perr; tidy; rewrite Hrb; tidy; destruct s as [rawBody|r]; tidy.
  all: try match goal with
       | |- context [decode ?h ?r ?b ?w] =>
         pose proof (decode_result h r b w w1) as E;
         pose proof (decode_trace h r b w) as T;
         unfold run in E;
         destruct (decode h r b w) as [[?|?] ?];
         destruct (decode h r b w1) as [[?|?] ?];
         tidy; rewrite T
       end.
  all: cbn [decoded requests];
    rewrite ?decoded_app, ?requests_app, ?Hde, ?Hre; simpl;
    repeat split; congruence.
Qed.

Lemma newRequest_ok (c : Client Value) (id : nat) (soapAction xmlBytes : bytes) :
  url_Parse (url c) = None ->
  exists req, newRequest c (liveContext id) soapAction xmlBytes = inl req.
Proof.
  intros Hu. unfold newRequest, NewRequestWithContext. rewrite Hu.
  eexists. reflexivity.
Qed.

(** C7: the outgoing 1.1-to-1.2 namespace translation is applied to the
    marshalled request if and only if the client's configured SOAP version
    is 1.2, while the incoming 1.2-to-1.1 translation is applied to the
    response body for every configured version, before it is unmarshalled.
    When the request marshals and can be built, the call hands the transport
    one request, whose body is the marshalled envelope, translated exactly
    under version 1.2; and when the transport answers with a body to go on
    with, the call hands the decoder one document, the translation of that
    body.  Besides, whatever request a call has sent and whatever document it
    has decoded are of these forms. *)
Theorem C7_translation_directions
        (c : Client Value) (ctx : Context) (soapAction : bytes)
        (request response : option Value) :
  (forall req,
      In (EvDo req) (trace (snd (Call c ctx soapAction request response))) ->
      exists m,
        Marshal (Marshaller c) (envelopeOf request) = inl m /\
        (SoapVersion c = SoapVersion12 -> ReqBody req = replaceSoap11to12 m) /\
        (SoapVersion c <> SoapVersion12 -> ReqBody req = m)) /\
  (forall data target,
      In (EvXMLUnmarshal data target)
         (trace (snd (Call c ctx soapAction request response))) ->
      exists rawBody,
        In (bodyLogged rawBody) (trace (snd (Call c ctx soapAction request response))) /\
        data = replaceSoap12to11 rawBody) /\
  (forall m id,
      Marshal (Marshaller c) (envelopeOf request) = inl m ->
      ctx = liveContext id ->
      url_Parse (url c) = None ->
      exists req,
        requests (trace (snd (Call c ctx soapAction request response))) = [req] /\
        (SoapVersion c = SoapVersion12 -> ReqBody req = replaceSoap11to12 m) /\
        (SoapVersion c <> SoapVersion12 -> ReqBody req = m) /\
        forall httpResponse mediaType params perr rawBody,
          HTTPClientDoFn c req = inl httpResponse ->
          mediaTypeOf httpResponse = (mediaType, params, perr) ->
          bodyRead httpResponse mediaType params = Some rawBody ->
          decoded (trace (snd (Call c ctx soapAction request response)))
          = [(replaceSoap12to11 rawBody,
              envelopeOf (match response with
                          | Some v => Some v
                          | None => Some dummyContent
                          end))]).
Proof.
  split; [apply sent_and_decoded_inv|]. split; [apply sent_and_decoded_inv|].
  intros m id Hm -> Hu.
  assert (He : encode c request
               = inl (if bytes_eqb (SoapVersion c) SoapVersion12
                      then replaceSoap11to12 m else m))
    by (unfold encode; now rewrite Hm).
  destruct (newRequest_ok c id soapAction
              (if bytes_eqb (SoapVersion c) SoapVersion12
               then replaceSoap11to12 m else m) Hu) as [req Hn].
  exists req.
  assert (Hreqs : requests (trace (snd (Call c (liveContext id) soapAction
                                            request response))) = [req]).
  { destruct (HTTPClientDoFn c req) as [httpResponse|err] eqn:Hd.
    - destruct (mediaTypeOf httpResponse) as [[mediaType params] perr] eqn:Hmt.
      apply (Call_outcome c _ _ _ _ _ _ _ _ _ _
               {| responseValue := None; trace := [] |}
               {| responseValue := None; trace := [] |} He Hn Hd Hmt).
    - open_call. tidy. rewrite He, Hn, Hd. reflexivity. }
  split; [exact Hreqs|].
  rewrite (newRequest_body _ _ _ _ _ Hn).
  split; [|split].
  - intros Hv. apply bytes_eqb_eq in Hv. now rewrite Hv.
  - intros Hv. destruct (bytes_eqb (SoapVersion c) SoapVersion12) eqn:Hb;
      [apply bytes_eqb_eq in Hb; congruence|reflexivity].
  - intros httpResponse mediaType params perr rawBody Hd Hmt Hbody.
    pose proof (Call_outcome c _ soapAction request response _ _ _ _ _ _
                  {| responseValue := None; trace := [] |}
                  {| responseValue := None; trace := [] |} He Hn Hd Hmt) as [_ H].
    rewrite (bodyRead_spec _ _ _ {| responseValue := None; trace := [] |}) in Hbody.
    destruct (fst (readBody httpResponse mediaType params
                     {| responseValue := None; trace := [] |})) as [raw|r];
      [|discriminate].
    injection Hbody as <-. apply H.
Qed.


End CallProperties.

(** ** Call on the sample messages *)

Lemma C8_empty_body_is_success_witness :
  fst (Samples.call (Samples.client Samples.textXML (Samples.sent [])) (Some (lit "kept")))
  = (Some (Samples.answer Samples.textXML (Samples.sent [])), None) /\
  responseValue
    (snd (Samples.call (Samples.client Samples.textXML (Samples.sent [])) (Some (lit "kept"))))
  = Some (lit "kept") /\
  forall data target,
    ~ In (EvXMLUnmarshal data target)
         (trace (snd (Samples.call (Samples.client Samples.textXML (Samples.sent []))
                                   (Some (lit "kept"))))).
Proof.
  unfold Samples.call.
  eapply (@C8_empty_body_is_success bytes w3c Samples.lib).
  - vm_compute. reflexivity.
  - vm_compute. reflexivity.
  - reflexivity.
  - vm_compute. reflexivity.
  - reflexivity.
  - reflexivity.
Defined.

(** C3, as the spec states it, fails: a body that holds the envelope after
    a line feed does not begin with [<soap] or [<SOAP], and Call decodes it
    and returns success. *)
Lemma C3_not_a_soap_message_counterexample :
  let body := LF ++ Samples.answer11 in
  body <> [] /\
  HasPrefix body soapPrefixTagLC = false /\
  HasPrefix body soapPrefixTagUC = false /\
  fst (Samples.call (Samples.client Samples.textXML (Samples.sent body)) (Some []))
  = (Some (Samples.answer Samples.textXML (Samples.sent body)), None).
Proof.
  cbv zeta. split; [discriminate|]. split; [reflexivity|]. split; [reflexivity|].
  vm_compute. reflexivity.
Qed.

Lemma C3_not_a_soap_message_witness :
  exists e,
    fst (Samples.call (Samples.client Samples.textXML (Samples.sent (lit "<html>502</html>")))
                      (Some []))
    = (None, Some e) /\
    Error e = (lit "This is not a SOAP-Message: " ++ LF) ++ lit "<html>502</html>" /\
    Contains (Error e) (lit "<html>502</html>") = true.
Proof.
  unfold Samples.call.
  eapply (@C3_not_a_soap_message bytes w3c Samples.lib).
  - vm_compute. reflexivity.
  - vm_compute. reflexivity.
  - reflexivity.
  - vm_compute. reflexivity.
  - reflexivity.
  - reflexivity.
  - discriminate.
  - reflexivity.
  - reflexivity.
Defined.

Lemma C6_multipart_payload_witness :
  In (bodyLogged Samples.answer11)
     (trace (snd (Samples.call
                    (Samples.client Samples.multipartRelated (Samples.sent Samples.twoParts))
                    (Some [])))) /\
  forall w,
    fst (Samples.call
           (Samples.client Samples.multipartRelated (Samples.sent Samples.twoParts))
           (Some []))
    = fst (run (@decode bytes w3c Samples.lib
                  (Samples.answer Samples.multipartRelated (Samples.sent Samples.twoParts))
                  (Some []) Samples.answer11) w).
Proof.
  unfold Samples.call.
  refine (@C6_multipart_payload bytes w3c Samples.lib _ _ _ _ _ _ _ _ _ _ _
            [NextPartOk (Samples.sent (lit "an attachment"))]
            [NextPartOk (Samples.sent Samples.answer11)]
            _ _ _ _ _ _ _ _).
  - vm_compute. reflexivity.
  - vm_compute. reflexivity.
  - reflexivity.
  - vm_compute. reflexivity.
  - reflexivity.
  - vm_compute. reflexivity.
  - reflexivity.
  - left. reflexivity.
Defined.

(** C1, as the spec states it, fails: a SOAP 1.2 fault whose text names the
    1.2 namespace comes back rendered from the translated bytes, which is not
    the rendering of the bytes received. *)
Lemma C1_fault_renders_translated_bytes_counterexample :
  let out := Samples.call (Samples.client Samples.textXML (Samples.sent Samples.fault12))
                          (Some []) in
  In (bodyLogged Samples.fault12) (trace (snd out)) /\
  fst out
  = (None, Some (errors_New
       ((lit "SOAP FAULT:" ++ LF) ++
        @formatFaultXML bytes Samples.lib (@replaceSoap12to11 w3c Samples.fault12) 1))) /\
  fst out
  <> (None, Some (errors_New
       ((lit "SOAP FAULT:" ++ LF) ++ @formatFaultXML bytes Samples.lib Samples.fault12 1))).
Proof.
  cbv zeta. split; [|split].
  - vm_compute. tauto.
  - vm_compute. reflexivity.
  - vm_compute. discriminate.
Qed.

Lemma C1_fault_renders_translated_bytes_witness :
  fst (Samples.call (Samples.client Samples.textXML (Samples.sent Samples.fault12)) (Some []))
  = (None, Some (errors_New
       ((lit "SOAP FAULT:" ++ LF) ++
        @formatFaultXML bytes Samples.lib (@replaceSoap12to11 w3c Samples.fault12) 1))) /\
  exists rawBody,
    In (bodyLogged rawBody)
       (trace (snd (Samples.call
                      (Samples.client Samples.textXML (Samples.sent Samples.fault12))
                      (Some [])))) /\
    @replaceSoap12to11 w3c Samples.fault12 = @replaceSoap12to11 w3c rawBody.
Proof.
  unfold Samples.call.
  eapply (@C1_fault_renders_translated_bytes bytes w3c Samples.lib).
  - vm_compute. tauto.
  - vm_compute. reflexivity.
  - discriminate.
Defined.

(** A client switched to SOAP 1.2 sends its envelope in the 1.2 namespace,
    and decodes a 1.1 answer all the same. *)
Example UseSoap12_request_is_translated :
  let c := Samples.withTransport
             (@UseSoap12 bytes w3c (Samples.client Samples.textXML (Samples.sent [])))
             (Samples.server Samples.textXML (Samples.sent Samples.answer11)) in
  exists req,
    In (EvDo req) (trace (snd (Samples.call c (Some [])))) /\
    Contains (ReqBody req) (@bNamespaceSoap12 w3c) = true /\
    Contains (ReqBody req) (@bNamespaceSoap11 w3c) = false /\
    Header_Get (ReqHeader req) (lit "Content-Type") = @SoapContentType12 w3c /\
    responseValue (snd (Samples.call c (Some []))) = Some (lit "hi").
Proof.
  cbv zeta. eexists. split; [vm_compute; do 6 right; left; reflexivity|].
  repeat split; vm_compute; reflexivity.
Qed.

(** C2: the decode of a response is not delegated to the injected
    Unmarshal.  Whatever [Unmarshal] the client's Marshaller has, Call does
    the same; with a marshaller whose [Unmarshal] refuses every document,
    Call still decodes the answer, into the caller's value, and returns
    success. *)
Theorem C2_injected_Unmarshal_not_used :
  (forall (Value : Type) (K : SoapConsts) (P : Platform Value)
          (c : Client Value) u ctx soapAction request response,
      Call (withUnmarshal c u) ctx soapAction request response
      = Call c ctx soapAction request response) /\
  (let c := Samples.withMarshaller
              (Samples.client Samples.textXML (Samples.sent Samples.answer11))
              Samples.refusing in
   fst (Samples.call c (Some []))
   = (Some (Samples.answer Samples.textXML (Samples.sent Samples.answer11)), None) /\
   responseValue (snd (Samples.call c (Some []))) = Some (lit "hi")).
Proof.
  split.
  - intros. reflexivity.
  - cbv zeta. split; vm_compute; reflexivity.
Qed.

(* ================================================================= *)
(** * Further properties of the namespace translator *)

Lemma Contains_nil_r (s : bytes) : Contains s [] = true.
Proof. destruct s; reflexivity. Qed.

Lemma replaceFrom_absent (old new s : bytes) :
  Contains s old = false -> replaceFrom old new 0 s = s.
Proof.
  induction s as [|c s IH]; intros H; [reflexivity|].
  rewrite replaceFrom_nomatch by now apply Contains_prefix_false.
  f_equal. apply IH. eapply Contains_tail_false; eassumption.
Qed.

Lemma ReplaceAll_absent (s old new : bytes) :
  Contains s old = false -> ReplaceAll s old new = s.
Proof.
  intros H. unfold ReplaceAll. destruct old as [|c old].
  - rewrite Contains_nil_r in H. discriminate.
  - now apply replaceFrom_absent.
Qed.

(** X1: a payload that does not contain the SOAP 1.1 namespace literal is
    returned unchanged by the 1.1-to-1.2 translation: no error, no change. *)
Theorem replaceSoap11to12_absent_is_noop {K : SoapConsts} (data : bytes) :
  Contains data bNamespaceSoap11 = false -> replaceSoap11to12 data = data.
Proof. apply ReplaceAll_absent. Qed.

Lemma replaceSoap11to12_absent_is_noop_witness :
  @replaceSoap11to12 w3c Samples.fault12 = Samples.fault12.
Proof.
  apply (@replaceSoap11to12_absent_is_noop w3c Samples.fault12). reflexivity.
Defined.

(** X2: a payload that does not contain the SOAP 1.2 namespace literal is
    returned unchanged by the 1.2-to-1.1 translation. *)
Theorem replaceSoap12to11_absent_is_noop {K : SoapConsts} (data : bytes) :
  Contains data bNamespaceSoap12 = false -> replaceSoap12to11 data = data.
Proof. apply ReplaceAll_absent. Qed.

Lemma replaceSoap12to11_absent_is_noop_witness :
  @replaceSoap12to11 w3c Samples.answer11 = Samples.answer11.
Proof.
  apply (@replaceSoap12to11_absent_is_noop w3c Samples.answer11). reflexivity.
Defined.

Lemma overlap_free_spec (x y u v : bytes) :
  overlap_free x y = true -> x = u ++ v -> v <> [] -> HasPrefix y v = false.
Proof.
  unfold overlap_free; intros Hb -> Hv.
  rewrite forallb_forall in Hb.
  specialize (Hb (length u)).
  rewrite skipn_app, skipn_all, Nat.sub_diag in Hb; simpl in Hb.
  apply negb_true_iff, Hb, in_seq.
  rewrite length_app. destruct v; [congruence|]. simpl; lia.
Qed.

Lemma Contains_app_false (a x s : bytes) :
  none_begins_in a x s -> Contains s a = false -> Contains (x ++ s) a = false.
Proof.
  induction x as [|c x IH]; intros Hx Hs; [assumption|].
  simpl. apply orb_false_iff. split.
  - apply (Hx [] (c :: x)); [reflexivity|discriminate].
  - apply IH; [|assumption].
    intros u1 u2 -> Hu2. apply (Hx (c :: u1) u2); [reflexivity|assumption].
Qed.

Lemma Contains_nil_l (a : bytes) : a <> [] -> Contains [] a = false.
Proof. destruct a; [congruence|reflexivity]. Qed.

Lemma length_nonempty (a : bytes) : a <> [] -> 0 < length a.
Proof. destruct a; [congruence|simpl; lia]. Qed.

Section Residue.
Variables a b : bytes.
Hypothesis a_b : overlap_free a b = true.
Hypothesis b_a : overlap_free b a = true.
Hypothesis b_not_in_a : Contains a b = false.
Hypothesis a_not_in_b : Contains b a = false.

Lemma residue_a_nonempty : a <> [].
Proof. intros Ha. rewrite Ha, Contains_nil_r in a_not_in_b. discriminate. Qed.

(** The scan that replaces [a] by [b] brings no occurrence of [a] into the
    bytes it has copied. *)
Lemma scan_none_begins_in (p u : bytes) :
  none_begins_in a u p -> none_begins_in a u (replaceFrom a b 0 p).
Proof.
  revert u. induction p as [|c p IH]; intros u Hq; [exact Hq|].
  destruct (HasPrefix (c :: p) a) eqn:Hp.
  - apply HasPrefix_inv in Hp as [r Hr]. rewrite Hr in *.
    rewrite replaceFrom_match by exact residue_a_nonempty.
    intros u1 u2 Hu Hu2.
    destruct (HasPrefix (u2 ++ b ++ replaceFrom a b 0 r) a) eqn:Hx; [|reflexivity].
    exfalso. apply HasPrefix_inv in Hx as [t Ht]. symmetry in Ht.
    apply app_eq_app in Ht as [v [[Hv1 Hv2]|[Hv1 Hv2]]].
    + (* a = u2 ++ v *)
      destruct v as [|d v].
      * rewrite app_nil_r in Hv1. subst u2.
        specialize (Hq u1 a Hu Hu2). rewrite HasPrefix_app in Hq. discriminate.
      * apply app_eq_app in Hv2 as [v' [[Hw1 Hw2]|[Hw1 Hw2]]].
        -- (* b = (d :: v) ++ v' *)
           assert (HasPrefix b (d :: v) = true) by (rewrite Hw1; apply HasPrefix_app).
           rewrite (overlap_free_spec a b u2 (d :: v) a_b Hv1) in H;
             [discriminate|discriminate].
        -- (* d :: v = b ++ v' *)
           assert (Contains a b = true)
             by (rewrite Hv1, Hw1; apply Contains_intro).
           congruence.
    + (* u2 = a ++ v *)
      specialize (Hq u1 u2 Hu Hu2).
      rewrite Hv1, <- app_assoc, HasPrefix_app in Hq. discriminate.
  - rewrite replaceFrom_nomatch by assumption.
    assert (Hq' : none_begins_in a (u ++ [c]) p).
    { intros u1 u2 Hu Hu2.
      destruct (exists_last Hu2) as [u2' [x Hx]]. subst u2.
      rewrite app_assoc in Hu. apply app_inj_tail in Hu as [Hu <-].
      rewrite <- app_assoc. simpl.
      destruct u2' as [|y u2']; [exact Hp|].
      apply (Hq u1 (y :: u2')); [assumption|discriminate]. }
    specialize (IH _ Hq').
    intros u1 u2 Hu Hu2.
    specialize (IH u1 (u2 ++ [c])).
    rewrite <- app_assoc in IH. simpl in IH. apply IH.
    + now rewrite Hu, app_assoc.
    + destruct u2; discriminate.
Qed.

Lemma scan_leaves_none (n : nat) (p : bytes) :
  length p <= n -> Contains (replaceFrom a b 0 p) a = false.
Proof.
  revert p. induction n as [|n IH]; intros p Hn.
  - destruct p; [|simpl in Hn; lia].
    apply Contains_nil_l, residue_a_nonempty.
  - destruct p as [|c p].
    { apply Contains_nil_l, residue_a_nonempty. }
    destruct (HasPrefix (c :: p) a) eqn:Hp.
    + apply HasPrefix_inv in Hp as [r Hr]. rewrite Hr.
      rewrite replaceFrom_match by exact residue_a_nonempty.
      apply Contains_app_false.
      * intros b1 b2 Hb Hb2.
        destruct (HasPrefix (b2 ++ replaceFrom a b 0 r) a) eqn:Hx; [|reflexivity].
        exfalso. apply HasPrefix_inv in Hx as [t Ht]. symmetry in Ht.
        apply app_eq_app in Ht as [v [[Hv1 Hv2]|[Hv1 Hv2]]].
        -- assert (HasPrefix a b2 = true) by (rewrite Hv1; apply HasPrefix_app).
           rewrite (overlap_free_spec b a b1 b2 b_a Hb Hb2) in H. discriminate.
        -- assert (Contains b a = true)
             by (rewrite Hb, Hv1; apply Contains_intro).
           congruence.
      * apply IH.
        assert (length (c :: p) = length a + length r)
          by (rewrite Hr; apply length_app).
        pose proof (length_nonempty a residue_a_nonempty).
        simpl in *; lia.
    + rewrite replaceFrom_nomatch by assumption.
      apply (Contains_app_false a [c]).
      * apply scan_none_begins_in.
        intros u1 u2 Hu Hu2.
        destruct u1 as [|x u1].
        -- simpl in Hu. subst u2. exact Hp.
        -- destruct u1; destruct u2; try discriminate; congruence.
      * apply IH. simpl in Hn. lia.
Qed.

End Residue.

Lemma ReplaceAll_leaves_none (a b p : bytes) :
  overlap_free a b = true -> overlap_free b a = true ->
  Contains a b = false -> Contains b a = false ->
  Contains (ReplaceAll p a b) a = false.
Proof.
  intros H1 H2 H3 H4. unfold ReplaceAll.
  pose proof (residue_a_nonempty a b H4) as Ha.
  destruct a as [|x a]; [congruence|].
  now apply (scan_leaves_none (x :: a) b H1 H2 H3 H4 (length p) p).
Qed.

(** X3: when the two namespace literals neither contain nor overlap one
    another, as the standard URIs do, the 1.1-to-1.2 translation leaves no
    occurrence of the 1.1 literal in its result, so translating a second
    time changes nothing. *)
Theorem replaceSoap11to12_idempotent {K : SoapConsts} (p : bytes) :
  overlap_free bNamespaceSoap11 bNamespaceSoap12 = true ->
  overlap_free bNamespaceSoap12 bNamespaceSoap11 = true ->
  Contains bNamespaceSoap11 bNamespaceSoap12 = false ->
  Contains bNamespaceSoap12 bNamespaceSoap11 = false ->
  Contains (replaceSoap11to12 p) bNamespaceSoap11 = false /\
  replaceSoap11to12 (replaceSoap11to12 p) = replaceSoap11to12 p.
Proof.
  intros H1 H2 H3 H4.
  assert (Contains (replaceSoap11to12 p) bNamespaceSoap11 = false)
    by now apply ReplaceAll_leaves_none.
  split; [assumption|]. now apply ReplaceAll_absent.
Qed.

Lemma replaceSoap11to12_idempotent_witness :
  let p := Samples.answer11 ++ Samples.fault12 in
  Contains (@replaceSoap11to12 w3c p) (@bNamespaceSoap11 w3c) = false /\
  @replaceSoap11to12 w3c (@replaceSoap11to12 w3c p) = @replaceSoap11to12 w3c p.
Proof.
  apply (@replaceSoap11to12_idempotent w3c (Samples.answer11 ++ Samples.fault12));
    reflexivity.
Defined.

(** X4: under the same condition on the two literals, the 1.2-to-1.1
    translation leaves no occurrence of the 1.2 literal in its result, and
    is idempotent. *)
Theorem replaceSoap12to11_idempotent {K : SoapConsts} (p : bytes) :
  overlap_free bNamespaceSoap11 bNamespaceSoap12 = true ->
  overlap_free bNamespaceSoap12 bNamespaceSoap11 = true ->
  Contains bNamespaceSoap11 bNamespaceSoap12 = false ->
  Contains bNamespaceSoap12 bNamespaceSoap11 = false ->
  Contains (replaceSoap12to11 p) bNamespaceSoap12 = false /\
  replaceSoap12to11 (replaceSoap12to11 p) = replaceSoap12to11 p.
Proof.
  intros H1 H2 H3 H4.
  assert (Contains (replaceSoap12to11 p) bNamespaceSoap12 = false)
    by now apply ReplaceAll_leaves_none.
  split; [assumption|]. now apply ReplaceAll_absent.
Qed.

Lemma replaceSoap12to11_idempotent_witness :
  let p := Samples.answer11 ++ Samples.fault12 in
  Contains (@replaceSoap12to11 w3c p) (@bNamespaceSoap12 w3c) = false /\
  @replaceSoap12to11 w3c (@replaceSoap12to11 w3c p) = @replaceSoap12to11 w3c p.
Proof.
  apply (@replaceSoap12to11_idempotent w3c (Samples.answer11 ++ Samples.fault12));
    reflexivity.
Defined.

(* ================================================================= *)
(** * Further properties of the fault formatter *)

Section FormatterProperties.
Context {Value : Type} {P : Platform Value}.

Lemma fmtStep_plain (startLevel : Z) (st : fmtState) (t : Token) :
  fold_left (fmtStep startLevel) (plainToken t) st = fmtStep startLevel st t.
Proof. destruct t; reflexivity. Qed.

Lemma fold_fmtStep_plain (startLevel : Z) (ts : list Token) (st : fmtState) :
  fold_left (fmtStep startLevel) (plainTokens ts) st
  = fold_left (fmtStep startLevel) ts st.
Proof.
  revert st. induction ts as [|t ts IH]; intros st; [reflexivity|].
  unfold plainTokens in *. simpl. rewrite fold_left_app, fmtStep_plain. apply IH.
Qed.

(** X5: the fault formatter drops namespaces, attributes, comments,
    processing instructions and directives: two documents whose tokens agree
    in the local names of their start and end elements and in their character
    data are rendered alike, at every start level. *)
Theorem formatFaultXML_drops_namespaces (x y : bytes) (startLevel : Z) :
  plainTokens (xml_Tokens x) = plainTokens (xml_Tokens y) ->
  formatFaultXML x startLevel = formatFaultXML y startLevel.
Proof.
  intros H. unfold formatFaultXML.
  rewrite <- (fold_fmtStep_plain startLevel (xml_Tokens x)).
  rewrite <- (fold_fmtStep_plain startLevel (xml_Tokens y)).
  now rewrite H.
Qed.

Lemma TrimLeft_head (s cutset : bytes) :
  match TrimLeft s cutset with
  | c :: _ => inCutset cutset c = false
  | [] => True
  end.
Proof.
  induction s as [|c s IH]; simpl; [exact I|].
  destruct (inCutset cutset c) eqn:Hc; [exact IH|exact Hc].
Qed.

Lemma TrimLeft_suffix (s cutset : bytes) :
  exists d, s = d ++ TrimLeft s cutset.
Proof.
  induction s as [|c s [d IH]]; simpl; [now exists []|].
  destruct (inCutset cutset c).
  - exists (c :: d). simpl. now f_equal.
  - now exists [].
Qed.

Lemma TrimRight_prefix (s cutset : bytes) :
  exists d, s = TrimRight s cutset ++ d.
Proof.
  unfold TrimRight. destruct (TrimLeft_suffix (rev s) cutset) as [d Hd].
  exists (rev d). rewrite <- rev_app_distr, <- Hd. now rewrite rev_involutive.
Qed.

Lemma Trim_ends (s cutset : bytes) :
  match Trim s cutset with
  | c :: _ => inCutset cutset c = false
  | [] => True
  end /\
  match rev (Trim s cutset) with
  | c :: _ => inCutset cutset c = false
  | [] => True
  end.
Proof.
  unfold Trim. split.
  - pose proof (TrimLeft_head s cutset) as Hh.
    destruct (TrimRight_prefix (TrimLeft s cutset) cutset) as [d Hd].
    destruct (TrimRight (TrimLeft s cutset) cutset) as [|c r]; [exact I|].
    rewrite Hd in Hh. exact Hh.
  - unfold TrimRight. rewrite rev_involutive. apply TrimLeft_head.
Qed.

(** X6: the text the fault formatter returns neither begins nor ends with
    a space or a line feed. *)
Theorem formatFaultXML_trimmed (xmlBytes : bytes) (startLevel : Z) :
  match formatFaultXML xmlBytes startLevel with
  | c :: _ => inCutset (lit " " ++ LF) c = false
  | [] => True
  end /\
  match rev (formatFaultXML xmlBytes startLevel) with
  | c :: _ => inCutset (lit " " ++ LF) c = false
  | [] => True
  end.
Proof. unfold formatFaultXML. apply Trim_ends. Qed.

End FormatterProperties.

Lemma formatFaultXML_drops_namespaces_witness :
  @formatFaultXML bytes Samples.lib Samples.fragment 0
  = @formatFaultXML bytes Samples.lib MoreSamples.fragmentPlain 0.
Proof.
  apply (@formatFaultXML_drops_namespaces bytes Samples.lib). reflexivity.
Defined.

(* ================================================================= *)
(** * The further properties of Call on the sample messages *)

(** An event that a computed trace holds. *)
Ltac in_trace := vm_compute; repeat (first [left; reflexivity | right]).

Lemma Call_fails_before_sending_witness :
  @Call bytes w3c Samples.lib MoreSamples.answering nilContext (lit "operationFoo")
        MoreSamples.request (Some (lit "kept"))
  = ((None, Some (errors_New (lit "net/http: nil Context"))),
     {| responseValue := Some (lit "kept"); trace := [] |}).
Proof.
  apply (@Call_fails_before_sending bytes w3c Samples.lib).
  right. eexists. split; vm_compute; reflexivity.
Defined.

Lemma Call_transport_error_witness :
  exists req err,
    fst (Samples.call MoreSamples.offline (Some (lit "kept"))) = (None, Some err) /\
    responseValue (snd (Samples.call MoreSamples.offline (Some (lit "kept"))))
    = Some (lit "kept") /\
    requests (trace (snd (Samples.call MoreSamples.offline (Some (lit "kept"))))) = [req] /\
    closes (trace (snd (Samples.call MoreSamples.offline (Some (lit "kept"))))) = 0 /\
    decoded (trace (snd (Samples.call MoreSamples.offline (Some (lit "kept"))))) = [].
Proof.
  do 2 eexists. unfold Samples.call.
  eapply (@Call_transport_error bytes w3c Samples.lib); vm_compute; reflexivity.
Defined.

Lemma Call_closes_body_last_witness :
  exists tr,
    trace (snd (Samples.call MoreSamples.answering (Some []))) = EvBodyClose :: tr /\
    closes tr = 0.
Proof.
  unfold Samples.call.
  eapply (@Call_closes_body_last bytes w3c Samples.lib); [in_trace|reflexivity].
Defined.

Lemma Call_unmarshal_error_witness :
  fst (Samples.call (Samples.client Samples.textXML (Samples.sent MoreSamples.brokenXML))
                    (Some []))
  = (None, Some (errors_New
       ((lit "soap/client.go Call(): COULD NOT UNMARSHAL: " ++ Error GoModel.syntaxError)
        ++ LF))).
Proof.
  unfold Samples.call.
  eapply (@Call_unmarshal_error bytes w3c Samples.lib); [in_trace|vm_compute; reflexivity].
Defined.

Lemma Call_success_witness :
  fst (Samples.call MoreSamples.answering (Some []))
  = (Some (Samples.answer Samples.textXML (Samples.sent Samples.answer11)), None).
Proof.
  unfold Samples.call.
  eapply (@Call_success bytes w3c Samples.lib);
    [in_trace|reflexivity|in_trace|vm_compute; reflexivity|reflexivity].
Defined.

Lemma Call_decoder_target_witness :
  exists data target,
    In (EvXMLUnmarshal data target)
       (trace (snd (Samples.call
                      (Samples.client Samples.textXML (Samples.sent Samples.fault12))
                      None))) /\
    target = @envelopeOf bytes (Some (@dummyContent bytes Samples.lib)).
Proof.
  do 2 eexists. split; [in_trace|].
  unfold Samples.call.
  refine (@Call_decoder_target bytes w3c Samples.lib
            (Samples.client Samples.textXML (Samples.sent Samples.fault12))
            (liveContext 0) (lit "operationFoo") MoreSamples.request None _ _ _).
  in_trace.
Defined.

Lemma Call_decodes_soap_only_witness :
  exists data target,
    In (EvXMLUnmarshal data target)
       (trace (snd (Samples.call MoreSamples.answering (Some [])))) /\
    exists rawBody,
      data = @replaceSoap12to11 w3c rawBody /\
      rawBody <> [] /\
      (Contains rawBody soapPrefixTagLC = true \/
       Contains rawBody soapPrefixTagUC = true).
Proof.
  do 2 eexists. split; [in_trace|].
  unfold Samples.call.
  refine (@Call_decodes_soap_only bytes w3c Samples.lib MoreSamples.answering
            MoreSamples.ctx MoreSamples.action MoreSamples.request (Some []) _ _ _).
  in_trace.
Defined.


Lemma C7_translation_directions_witness :
  exists req m,
    Marshal (Marshaller MoreSamples.client12) (envelopeOf (Some (lit "<fooRequest><Foo>hello i am foo</Foo></fooRequest>"))) = inl m /\
    requests (trace (snd (Samples.call MoreSamples.client12 (Some [])))) = [req] /\
    ReqBody req = @replaceSoap11to12 w3c m /\
    Contains (ReqBody req) (@bNamespaceSoap12 w3c) = true /\
    Contains (ReqBody req) (@bNamespaceSoap11 w3c) = false /\
    decoded (trace (snd (Samples.call MoreSamples.client12 (Some []))))
    = [(@replaceSoap12to11 w3c MoreSamples.answer12, @envelopeOf bytes (Some []))] /\
    Contains (@replaceSoap12to11 w3c MoreSamples.answer12) (@bNamespaceSoap11 w3c) = true /\
    Contains (@replaceSoap12to11 w3c MoreSamples.answer12) (@bNamespaceSoap12 w3c) = false.
Proof.
  unfold Samples.call.
  destruct (@C7_translation_directions bytes w3c Samples.lib MoreSamples.client12
              (liveContext 0) (lit "operationFoo")
              (Some (lit "<fooRequest><Foo>hello i am foo</Foo></fooRequest>")) (Some []))
    as (_ & _ & H).
  destruct (H _ 0 eq_refl eq_refl eq_refl) as (req & Hreqs & H12 & _ & Hdec).
  exists req. eexists. split; [reflexivity|]. split; [exact Hreqs|].
  assert (Hbody : ReqBody req = @replaceSoap11to12 w3c _) by (apply H12; reflexivity).
  split; [exact Hbody|].
  split; [rewrite Hbody; vm_compute; reflexivity|].
  split; [rewrite Hbody; vm_compute; reflexivity|].
  split; [|split; vm_compute; reflexivity].
  pose proof Hreqs as Hr. vm_compute in Hr. injection Hr as Hr.
  apply (Hdec (Samples.answer Samples.textXML (Samples.sent MoreSamples.answer12))
              (lit "text/xml") (snd (fst (GoModel.ParseMediaType Samples.textXML))) None).
  - rewrite <- Hr. reflexivity.
  - reflexivity.
  - reflexivity.
Defined.

Lemma Call_single_part_decoded_witness :
  let c := Samples.client Samples.textXML (Samples.sent (LF ++ Samples.answer11)) in
  decoded (trace (snd (Samples.call c (Some []))))
  = [(@replaceSoap12to11 w3c (LF ++ Samples.answer11), @envelopeOf bytes (Some []))] /\
  In (bodyLogged (LF ++ Samples.answer11)) (trace (snd (Samples.call c (Some [])))).
Proof.
  cbv zeta. unfold Samples.call.
  eapply (@Call_single_part_decoded bytes w3c Samples.lib).
  - reflexivity.
  - reflexivity.
  - reflexivity.
  - reflexivity.
  - reflexivity.
  - reflexivity.
  - left. reflexivity.
Defined.

Lemma Call_request_shape_witness :
  exists req,
    In (EvDo req) (trace (snd (Samples.call MoreSamples.authClient (Some [])))) /\
    Method req = lit "POST" /\ ReqURL req = lit "http://127.0.0.1:8080/" /\
    ReqCtx req = liveContext 0 /\ Close req = true /\
    Header_Get (ReqHeader req) (CanonicalMIMEHeaderKey (lit "Content-Type"))
    = @SoapContentType11 w3c /\
    Header_Get (ReqHeader req) (CanonicalMIMEHeaderKey (lit "User-Agent"))
    = lit "my-agent" /\
    Header_Get (ReqHeader req) (CanonicalMIMEHeaderKey (lit "SOAPAction"))
    = lit "operationFoo" /\
    (lit "operationFoo" = [] ->
     ~ In (CanonicalMIMEHeaderKey (lit "SOAPAction")) (map fst (ReqHeader req))).
Proof.
  eexists. split; [in_trace|].
  unfold Samples.call.
  refine (@Call_request_shape bytes w3c Samples.lib MoreSamples.authClient
            MoreSamples.ctx MoreSamples.action MoreSamples.request (Some []) _ _ _);
    [reflexivity|in_trace].
Defined.

Lemma Call_request_authorization_witness :
  exists req,
    In (EvDo req) (trace (snd (Samples.call MoreSamples.authClient (Some [])))) /\
    Header_Get (ReqHeader req) (CanonicalMIMEHeaderKey (lit "Authorization"))
    = lit "Basic " ++ lit "user:secret".
Proof.
  eexists. split; [in_trace|].
  unfold Samples.call.
  refine (@Call_request_authorization bytes w3c Samples.lib MoreSamples.authClient
            MoreSamples.ctx MoreSamples.action MoreSamples.request (Some []) _ _ _);
    [reflexivity|in_trace].
Defined.

Lemma Call_request_hook_last_witness :
  exists req req0,
    In (EvDo req) (trace (snd (Samples.call MoreSamples.hookClient (Some [])))) /\
    @newRequest bytes Samples.lib (withHook MoreSamples.hookClient None) (liveContext 0)
                (lit "operationFoo") (ReqBody req) = inl req0 /\
    req = withHeader req0 (MoreSamples.hook (ReqHeader req0)).
Proof.
  eexists. 
  assert (H : In (EvDo ?[r])
                 (trace (snd (Samples.call MoreSamples.hookClient (Some [])))))
    by in_trace.
  unfold Samples.call in H.
  destruct (@Call_request_hook_last bytes w3c Samples.lib MoreSamples.hookClient
              MoreSamples.ctx MoreSamples.action MoreSamples.request (Some []) _
              MoreSamples.hook eq_refl H) as [req0 Hreq0].
  exists req0. split; [exact H|exact Hreq0].
Defined.

Lemma UseSoap12_request_witness :
  exists req,
    In (EvDo req)
       (trace (snd (Samples.call (@UseSoap12 bytes w3c MoreSamples.answering) (Some [])))) /\
    Header_Get (ReqHeader req) (CanonicalMIMEHeaderKey (lit "Content-Type"))
    = @SoapContentType12 w3c /\
    exists m,
      Marshal (Marshaller MoreSamples.answering) (envelopeOf (Some (lit "<fooRequest><Foo>hello i am foo</Foo></fooRequest>"))) = inl m /\
      ReqBody req = @replaceSoap11to12 w3c m.
Proof.
  eexists. split; [in_trace|].
  unfold Samples.call.
  refine (@UseSoap12_request bytes w3c Samples.lib MoreSamples.answering
            MoreSamples.ctx MoreSamples.action MoreSamples.request (Some []) _ _ _);
    [reflexivity|in_trace].
Defined.

Lemma UseSoap11_request_witness :
  exists req,
    In (EvDo req)
       (trace (snd (Samples.call (@UseSoap11 bytes w3c MoreSamples.answering) (Some [])))) /\
    Header_Get (ReqHeader req) (CanonicalMIMEHeaderKey (lit "Content-Type"))
    = @SoapContentType11 w3c /\
    Marshal (Marshaller MoreSamples.answering) (envelopeOf (Some (lit "<fooRequest><Foo>hello i am foo</Foo></fooRequest>")))
    = inl (ReqBody req).
Proof.
  eexists. split; [in_trace|].
  unfold Samples.call.
  refine (@UseSoap11_request bytes w3c Samples.lib MoreSamples.answering
            MoreSamples.ctx MoreSamples.action MoreSamples.request (Some []) _ _ _ _);
    [discriminate|reflexivity|in_trace].
Defined.

Lemma NewClient_request_witness :
  exists req,
    In (EvDo req) (trace (snd (Samples.call MoreSamples.offline (Some [])))) /\
    Method req = lit "POST" /\ ReqURL req = lit "http://127.0.0.1:8080/" /\
    Header_Get (ReqHeader req) (CanonicalMIMEHeaderKey (lit "Content-Type"))
    = @SoapContentType11 w3c /\
    Header_Get (ReqHeader req) (CanonicalMIMEHeaderKey (lit "User-Agent")) = userAgent /\
    @xml_MarshalIndent bytes Samples.lib (envelopeOf (Some (lit "<fooRequest><Foo>hello i am foo</Foo></fooRequest>"))) [] TAB
    = inl (ReqBody req).
Proof.
  eexists. split; [in_trace|].
  unfold Samples.call, MoreSamples.offline.
  refine (@NewClient_request bytes w3c Samples.lib (lit "http://127.0.0.1:8080/") None
            MoreSamples.ctx MoreSamples.action MoreSamples.request (Some []) _ _ _);
    [discriminate|in_trace].
Defined.
